(** * Validator directory of the lighthouse validator client

    A shallow embedding of [validator_client/src/validator_directory.rs]:
    the on-disk layout of one validator (key files, eth1 deposit data,
    the two slashing-protection databases), the [ValidatorDirectoryBuilder]
    pipeline and [ValidatorDirectory::load_for_signing].

    The file system is a finite map from paths to entries; every
    operation of the code runs in a small state and error monad over a
    [World] that holds the file system and a trace of the writes done to
    it, so that the order of the writes can be stated. *)

From Stdlib Require Import ZArith NArith List Lia.
From Stdlib Require Import Strings.String Strings.Ascii.
From stdpp Require Import base gmap strings countable list.
Import ListNotations.
Abbreviation byte := Byte.byte.

Open Scope string_scope.

(** ** Rust's [Result<T, String>] *)

Inductive result (A : Type) : Type :=
| Ok (a : A)
| Err (e : string).
Arguments Ok {A} a.
Arguments Err {A} e.

Definition is_ok {A} (r : result A) : bool :=
  match r with Ok _ => true | Err _ => false end.

(** [Result::ok]: the value, dropping the error. *)
Definition result_ok {A} (r : result A) : option A :=
  match r with Ok a => Some a | Err _ => None end.

Definition result_map_err {A} (f : string -> string) (r : result A) : result A :=
  match r with Ok a => Ok a | Err e => Err (f e) end.

Definition result_bind {A B} (r : result A) (k : A -> result B) : result B :=
  match r with Ok a => k a | Err e => Err e end.

(** ** Paths ([PathBuf]) *)

Record PathBuf := mkPath { path_abs : bool; path_comps : list string }.

#[global] Instance PathBuf_eq_dec : EqDecision PathBuf.
Proof. solve_decision. Defined.

#[global] Program Instance PathBuf_countable : Countable PathBuf :=
  inj_countable' (fun p => (path_abs p, path_comps p)) (fun '(a, c) => mkPath a c) _.
Next Obligation. by intros []. Qed.

(** [Path::join]: an absolute right-hand side replaces the left one. *)
Definition join (p q : PathBuf) : PathBuf :=
  if path_abs q then q else mkPath (path_abs p) (path_comps p ++ path_comps q).

(** A file name such as ["voting_keypair"], as a relative one-component path. *)
Definition file_name (s : string) : PathBuf := mkPath false [s].

Definition parent (p : PathBuf) : PathBuf :=
  mkPath (path_abs p) (removelast (path_comps p)).

(** The ancestors of a path and the path itself, outermost first
    (the root of an absolute path is not an entry of the map). *)
Definition prefixes (p : PathBuf) : list PathBuf :=
  map (fun n => mkPath (path_abs p) (firstn n (path_comps p)))
      (seq 1 (length (path_comps p))).

Definition path_to_string (p : PathBuf) : string :=
  (if path_abs p then "/" else EmptyString) ++ String.concat "/" (path_comps p).

(** ** The file system and the trace of writes *)

(** What the block-proposal database holds as its [slots_per_epoch]. *)
Inductive StoredParam :=
| PUnset
| PSet (v : N)
| PUndecodable.

Inductive Entry :=
| Dir
| RegFile (mode : Z) (contents : list byte)
| SqliteStore (param : StoredParam).

Inductive Event :=
| EMkdir (p : PathBuf)
| ECreate (p : PathBuf)
| ESetMode (p : PathBuf) (mode : Z)
| EWrite (p : PathBuf) (bytes : list byte)
| ENewStore (p : PathBuf).

Record World := mkWorld { fs : gmap PathBuf Entry; trace : list Event }.

Definition IO (A : Type) : Type := World -> result A * World.

Definition io_ret {A} (a : A) : IO A := fun w => (Ok a, w).
Definition io_err {A} (e : string) : IO A := fun w => (Err e, w).
Definition io_bind {A B} (m : IO A) (k : A -> IO B) : IO B :=
  fun w => match m w with
           | (Ok a, w') => k a w'
           | (Err e, w') => (Err e, w')
           end.
Definition io_lift {A} (r : result A) : IO A := fun w => (r, w).
(** [.map_err(f)?] on an I/O step. *)
Definition io_map_err {A} (f : string -> string) (m : IO A) : IO A :=
  fun w => let '(r, w') := m w in (result_map_err f r, w').
(** [.ok()] on an I/O step. *)
Definition io_ok {A} (m : IO A) : IO (option A) :=
  fun w => let '(r, w') := m w in (Ok (result_ok r), w').

Notation "'let*' x ':=' m 'in' k" := (io_bind m (fun x => k))
  (at level 200, x name, m at level 100, k at level 200).

Definition modify_fs (f : gmap PathBuf Entry -> gmap PathBuf Entry) (ev : Event) : IO unit :=
  fun w => (Ok tt, mkWorld (f (fs w)) (trace w ++ [ev])).

(** [Path::exists]. *)
Definition path_exists (p : PathBuf) : IO bool :=
  fun w => (Ok (match fs w !! p with Some _ => true | None => false end), w).

(** The directory holding [p] exists (a one-component path lives in the
    current directory or in the root, which always exist). *)
Definition parent_is_dir (m : gmap PathBuf Entry) (p : PathBuf) : bool :=
  match removelast (path_comps p) with
  | [] => true
  | _ => match m !! parent p with Some Dir => true | _ => false end
  end.

(** ** Lowercase hexadecimal (the [hex] crate) *)

Definition hex_chars : list byte :=
  [Byte.x30; Byte.x31; Byte.x32; Byte.x33; Byte.x34; Byte.x35; Byte.x36; Byte.x37;
   Byte.x38; Byte.x39; Byte.x61; Byte.x62; Byte.x63; Byte.x64; Byte.x65; Byte.x66].

Definition hex_digit (n : nat) : byte := nth n hex_chars Byte.x30.

Definition hex_encode_byte (b : byte) : list byte :=
  [hex_digit (Byte.to_nat b / 16); hex_digit (Byte.to_nat b mod 16)].

(** [hex::encode], as the bytes of the string it returns. *)
Definition hex_encode (l : list byte) : list byte := flat_map hex_encode_byte l.

(** The value of one hex digit, upper or lower case. *)
Definition hex_val (c : byte) : option nat :=
  let n := Byte.to_nat c in
  if Nat.leb 48 n && Nat.leb n 57 then Some (n - 48)
  else if Nat.leb 97 n && Nat.leb n 102 then Some (n - 87)
  else if Nat.leb 65 n && Nat.leb n 70 then Some (n - 55)
  else None.

Fixpoint hex_decode_pairs (l : list byte) : result (list byte) :=
  match l with
  | [] => Ok []
  | [_] => Err "Odd number of digits"
  | a :: b :: rest =>
      match hex_val a, hex_val b with
      | Some hi, Some lo =>
          match Byte.of_nat (hi * 16 + lo) with
          | Some x => result_bind (hex_decode_pairs rest) (fun t => Ok (x :: t))
          | None => Err "Invalid character"
          end
      | _, _ => Err "Invalid character"
      end
  end.

(** [hex::decode]: odd length is rejected first, then every pair of digits. *)
Definition hex_decode (l : list byte) : result (list byte) :=
  if Nat.odd (length l) then Err "Odd number of digits" else hex_decode_pairs l.

(** ["0x"] as bytes. *)
Definition hex_prefix : list byte := [Byte.x30; Byte.x78].

(** A character of the lowercase hex alphabet. *)
Definition is_lower_hex (c : byte) : bool := existsb (Byte.eqb c) hex_chars.

(** ** Keys *)

(** A BLS public key, by its compressed (SSZ) serialization, which is
    what its [PartialEq] compares; a secret key by its 32 bytes. *)
Record PublicKey := mkPublicKey { pk_bytes : list byte }.
Record SecretKey := mkSecretKey { sk_bytes : list byte }.
Record Keypair := mkKeypair { sk : SecretKey; pk : PublicKey }.

Record ChainSpec := mkChainSpec {
  max_effective_balance : N;
  bls_withdrawal_prefix_byte : byte
}.

Record DepositData := mkDepositData {
  dd_pubkey : PublicKey;
  dd_withdrawal_credentials : list byte;
  dd_amount : N;
  dd_signature : list byte
}.

Definition VOTING_KEY_PREFIX := "voting".
Definition WITHDRAWAL_KEY_PREFIX := "withdrawal".
Definition ETH1_DEPOSIT_DATA_FILE := "eth1_deposit_data.rlp".
Definition ATTESTER_SLASHING_DB := "attester_slashing_protection.sqlite".
Definition BLOCK_PRODUCER_SLASHING_DB := "block_producer_slashing_protection.sqlite".

(** [libc::S_IWUSR | libc::S_IRUSR] = 0o600. *)
Definition S_IWUSR : Z := 128.
Definition S_IRUSR : Z := 256.
Definition owner_rw : Z := Z.lor S_IWUSR S_IRUSR.

Definition keypair_file (prefix : string) : string := prefix ++ "_keypair".

(** [dir_name]: ["0x"] and the hex of the voting key's SSZ bytes. *)
Definition dir_name (voting_pubkey : PublicKey) : string :=
  "0x" ++ string_of_list_byte (hex_encode (pk_bytes voting_pubkey)).

(** The SSZ encoding of [SszEncodableKeypair { pk, sk }]: two fixed-size
    fields, 48 and 32 bytes, laid out one after the other. *)
Definition keypair_as_ssz_bytes (kp : Keypair) : list byte :=
  pk_bytes (pk kp) ++ sk_bytes (sk kp).

(** ** The records *)

(** [ValidatorDirectory]. *)
Record ValidatorDirectory := mkValidatorDirectory {
  directory : PathBuf;
  voting_keypair : option Keypair;
  withdrawal_keypair : option Keypair;
  deposit_data : option (list byte);
  attestation_slashing_protection : option PathBuf;
  block_slashing_protection : option PathBuf;
  slots_per_epoch : option N
}.

Module Builder.
(** [ValidatorDirectoryBuilder]; its fields are private to the Rust module. *)
Record ValidatorDirectoryBuilder := mkBuilder {
  directory : option PathBuf;
  voting_keypair : option Keypair;
  withdrawal_keypair : option Keypair;
  amount : option N;
  deposit_data : option (list byte);
  attestation_slashing_protection : option PathBuf;
  block_slashing_protection : option PathBuf;
  spec : option ChainSpec;
  slots_per_epoch : option N
}.
End Builder.
Import Builder (ValidatorDirectoryBuilder, mkBuilder).

(** [#[derive(Default)]]. *)
Definition default_builder : ValidatorDirectoryBuilder :=
  mkBuilder None None None None None None None None None.

(** What the block-proposal database answers for [slots_per_epoch], given
    the value the caller passes when opening or creating it. *)
Definition param_read (sp : StoredParam) (fallback : option N) : result N :=
  match sp with
  | PSet v => Ok v
  | PUnset =>
      match fallback with
      | Some v => Ok v
      | None => Err "NoSlotsPerEpochProvided"
      end
  | PUndecodable => Err "Unable to decode slots_per_epoch"
  end.

(** An open [ValidatorHistory] handle. *)
Record History := mkHistory {
  history_path : PathBuf;
  history_slots_per_epoch : result N
}.

(** ** The program *)

(** The collaborators the module uses but does not define: the process
    umask, the raw bytes of a sqlite file, the BLS library (point and
    scalar checks made when keys are decoded, deterministic test keys,
    withdrawal credentials, signing) and the deposit-transaction encoder. *)
Class Env := {
  umask : Z;
  sqlite_image : StoredParam -> list byte;
  pk_point_valid : list byte -> bool;
  sk_scalar_valid : list byte -> bool;
  generate_deterministic_keypair : nat -> Keypair;
  get_withdrawal_credentials : PublicKey -> byte -> list byte;
  create_signature : DepositData -> SecretKey -> ChainSpec -> list byte;
  empty_signature : list byte;
  encode_eth1_tx_data : DepositData -> result (list byte)
}.

Section Program.
Context `{Env}.

(** *** File-system primitives *)

(** Mode of a new file: 0o666 without the umask bits. *)
Definition default_file_mode : Z := Z.land 438 (Z.lnot umask).

(** [File::create]: creates the file, or truncates an existing one,
    which keeps its mode. *)
Definition file_create (p : PathBuf) : IO unit := fun w =>
  if parent_is_dir (fs w) p then
    match fs w !! p with
    | Some Dir => (Err "Is a directory (os error 21)", w)
    | Some (RegFile m _) => modify_fs (<[p := RegFile m []]>) (ECreate p) w
    | _ => modify_fs (<[p := RegFile default_file_mode []]>) (ECreate p) w
    end
  else (Err "No such file or directory (os error 2)", w).

(** [file.set_permissions(perm)] after [perm.set_mode(mode)]. *)
Definition file_set_mode (p : PathBuf) (mode : Z) : IO unit := fun w =>
  match fs w !! p with
  | Some (RegFile _ c) => modify_fs (<[p := RegFile mode c]>) (ESetMode p mode) w
  | _ => (Err "No such file or directory (os error 2)", w)
  end.

(** [file.write_all(bytes)]. *)
Definition file_write_all (p : PathBuf) (bytes : list byte) : IO unit := fun w =>
  match fs w !! p with
  | Some (RegFile m c) => modify_fs (<[p := RegFile m (c ++ bytes)]>) (EWrite p bytes) w
  | _ => (Err "No such file or directory (os error 2)", w)
  end.

(** [File::open]. *)
Definition file_open (p : PathBuf) : IO unit := fun w =>
  match fs w !! p with
  | Some _ => (Ok tt, w)
  | None => (Err "No such file or directory (os error 2)", w)
  end.

(** [read_to_end] on the opened file. *)
Definition read_to_end (p : PathBuf) : IO (list byte) := fun w =>
  match fs w !! p with
  | Some (RegFile _ c) => (Ok c, w)
  | Some (SqliteStore sp) => (Ok (sqlite_image sp), w)
  | Some Dir => (Err "Is a directory (os error 21)", w)
  | None => (Err "No such file or directory (os error 2)", w)
  end.

Fixpoint mkdirs (qs : list PathBuf) : IO unit :=
  match qs with
  | [] => io_ret tt
  | q :: qs' => fun w =>
      match fs w !! q with
      | Some Dir => mkdirs qs' w
      | Some _ => (Err "File exists (os error 17)", w)
      | None => (let* _ := modify_fs (<[q := Dir]>) (EMkdir q) in mkdirs qs') w
      end
  end.

(** [fs::create_dir_all]. *)
Definition create_dir_all (p : PathBuf) : IO unit := mkdirs (prefixes p).

(** Modelled from the spec: [ValidatorHistory::new] of the
    [slashing_protection] crate ("new(path, optional parameter) -> handle |
    error"); it creates the database file, which must not exist yet, and
    records the [slots_per_epoch] it is given. *)
Definition history_new (p : PathBuf) (slots_per_epoch : option N) : IO History := fun w =>
  if match fs w !! p with Some _ => true | None => false end
  then (Err "database file already exists", w)
  else if parent_is_dir (fs w) p then
    let sp := match slots_per_epoch with Some v => PSet v | None => PUnset end in
    (Ok (mkHistory p (param_read sp slots_per_epoch)),
     mkWorld (<[p := SqliteStore sp]> (fs w)) (trace w ++ [ENewStore p]))
  else (Err "unable to open database file", w).

(** Modelled from the spec: [ValidatorHistory::open] ("open(path, optional
    parameter) -> handle | error"); the stored [slots_per_epoch] is
    authoritative, the caller's value is used only when none is stored. *)
Definition history_open (p : PathBuf) (slots_per_epoch : option N) : IO History := fun w =>
  match fs w !! p with
  | Some (SqliteStore sp) => (Ok (mkHistory p (param_read sp slots_per_epoch)), w)
  | Some _ => (Err "file is not a database", w)
  | None => (Err "unable to open database file", w)
  end.

(** Modelled from the spec: [ValidatorHistory::slots_per_epoch] ("read
    parameter from handle -> value | error"). *)
Definition slots_per_epoch_of (h : History) : result N := history_slots_per_epoch h.

(** *** Key files *)

Definition public_key_from_ssz_bytes (b : list byte) : result PublicKey :=
  if Nat.eqb (length b) 48 && pk_point_valid b then Ok (mkPublicKey b)
  else Err "InvalidPublicKey".

Definition secret_key_from_ssz_bytes (b : list byte) : result SecretKey :=
  if Nat.eqb (length b) 32 && sk_scalar_valid b then Ok (mkSecretKey b)
  else Err "InvalidSecretKey".

(** [SszEncodableKeypair::from_ssz_bytes] followed by [Into<Keypair>]:
    a fixed-size container, so the length must be exactly 48 + 32. *)
Definition keypair_from_ssz_bytes (b : list byte) : result Keypair :=
  if Nat.eqb (length b) 80 then
    result_bind (public_key_from_ssz_bytes (firstn 48 b)) (fun p =>
    result_bind (secret_key_from_ssz_bytes (skipn 48 b)) (fun s =>
    Ok (mkKeypair s p)))
  else Err "InvalidByteLength".

(** A keypair as the BLS library produces it. *)
Definition keypair_wf (kp : Keypair) : Prop :=
  length (pk_bytes (pk kp)) = 48 /\ pk_point_valid (pk_bytes (pk kp)) = true /\
  length (sk_bytes (sk kp)) = 32 /\ sk_scalar_valid (sk_bytes (sk kp)) = true.

(** [load_keypair]. *)
Definition load_keypair (base_path : PathBuf) (file_prefix : string) : IO Keypair :=
  let path := join base_path (file_name (keypair_file file_prefix)) in
  let* ex := path_exists path in
  if negb ex then io_err ("Keypair file does not exist: " ++ path_to_string path) else
  let* _ := io_map_err (fun e => "Unable to open keypair file: " ++ e) (file_open path) in
  let* bytes := io_map_err (fun e => "Unable to read keypair file: " ++ e) (read_to_end path) in
  io_lift (result_map_err (fun e => "Unable to decode keypair: " ++ e)
                          (keypair_from_ssz_bytes bytes)).

(** [String::from_utf8_lossy(&bytes).starts_with("0x")] and [&string[2..]]:
    a lossy decoding starts with ["0x"] exactly when the bytes start with
    0x30 0x78, and the rest only feeds [hex::decode], which rejects every
    non-ASCII byte as it rejects a replacement character. *)
Definition strip_0x (bytes : list byte) : option (list byte) :=
  match bytes with
  | b0 :: b1 :: rest =>
      if Byte.eqb b0 Byte.x30 && Byte.eqb b1 Byte.x78 then Some rest else None
  | _ => None
  end.

(** [load_eth1_deposit_data]. *)
Definition load_eth1_deposit_data (base_path : PathBuf) : IO (list byte) :=
  let path := join base_path (file_name ETH1_DEPOSIT_DATA_FILE) in
  let* ex := path_exists path in
  if negb ex then io_err ("Eth1 deposit data file does not exist: " ++ path_to_string path) else
  let* _ := io_map_err (fun e => "Unable to open eth1 deposit data file: " ++ e) (file_open path) in
  let* bytes := io_map_err (fun e => "Unable to read eth1 deposit data file: " ++ e)
                           (read_to_end path) in
  io_lift (match strip_0x bytes with
           | Some rest =>
               result_map_err (fun e => "Unable to decode eth1 data file as hex: " ++ e)
                              (hex_decode rest)
           | None => Err ("String did not start with 0x: " ++ string_of_list_byte bytes)
           end).

(** *** [ValidatorDirectory::load_for_signing] *)

Definition load_for_signing (directory : PathBuf) (slots_per_epoch : N) : IO ValidatorDirectory :=
  let* dir_exists := path_exists directory in
  if negb dir_exists then
    io_err ("Validator directory does not exist: " ++ path_to_string directory) else
  let attestation_slashing_protection := join directory (file_name ATTESTER_SLASHING_DB) in
  let block_slashing_protection := join directory (file_name BLOCK_PRODUCER_SLASHING_DB) in
  let* att_exists := path_exists attestation_slashing_protection in
  let* block_exists := path_exists block_slashing_protection in
  if negb (att_exists && block_exists) then
    io_err ("Unable to find slashing protection in " ++ path_to_string directory) else
  let* block_history := history_open block_slashing_protection (Some slots_per_epoch) in
  let* slots_per_epoch := io_lift (slots_per_epoch_of block_history) in
  let* voting_keypair := io_map_err (fun e => "Unable to get voting keypair: " ++ e)
                                    (load_keypair directory VOTING_KEY_PREFIX) in
  let* withdrawal_keypair := io_ok (load_keypair directory WITHDRAWAL_KEY_PREFIX) in
  let* deposit_data := io_ok (load_eth1_deposit_data directory) in
  io_ret {| directory := directory;
            voting_keypair := Some voting_keypair;
            withdrawal_keypair := withdrawal_keypair;
            deposit_data := deposit_data;
            attestation_slashing_protection := Some attestation_slashing_protection;
            block_slashing_protection := Some block_slashing_protection;
            slots_per_epoch := Some slots_per_epoch |}.

(** *** [ValidatorDirectoryBuilder] *)

Section BuilderSteps.
Variable b : ValidatorDirectoryBuilder.

Definition with_spec (spec : option ChainSpec) : ValidatorDirectoryBuilder :=
  mkBuilder (Builder.directory b) (Builder.voting_keypair b) (Builder.withdrawal_keypair b)
    (Builder.amount b) (Builder.deposit_data b) (Builder.attestation_slashing_protection b)
    (Builder.block_slashing_protection b) spec (Builder.slots_per_epoch b).

Definition with_amount (amount : option N) : ValidatorDirectoryBuilder :=
  mkBuilder (Builder.directory b) (Builder.voting_keypair b) (Builder.withdrawal_keypair b)
    amount (Builder.deposit_data b) (Builder.attestation_slashing_protection b)
    (Builder.block_slashing_protection b) (Builder.spec b) (Builder.slots_per_epoch b).

Definition with_keypairs (voting withdrawal : option Keypair) : ValidatorDirectoryBuilder :=
  mkBuilder (Builder.directory b) voting withdrawal
    (Builder.amount b) (Builder.deposit_data b) (Builder.attestation_slashing_protection b)
    (Builder.block_slashing_protection b) (Builder.spec b) (Builder.slots_per_epoch b).

Definition with_slots_per_epoch (spe : option N) : ValidatorDirectoryBuilder :=
  mkBuilder (Builder.directory b) (Builder.voting_keypair b) (Builder.withdrawal_keypair b)
    (Builder.amount b) (Builder.deposit_data b) (Builder.attestation_slashing_protection b)
    (Builder.block_slashing_protection b) (Builder.spec b) spe.

Definition with_directory (d : option PathBuf) : ValidatorDirectoryBuilder :=
  mkBuilder d (Builder.voting_keypair b) (Builder.withdrawal_keypair b)
    (Builder.amount b) (Builder.deposit_data b) (Builder.attestation_slashing_protection b)
    (Builder.block_slashing_protection b) (Builder.spec b) (Builder.slots_per_epoch b).

Definition with_deposit_data (dd : option (list byte)) : ValidatorDirectoryBuilder :=
  mkBuilder (Builder.directory b) (Builder.voting_keypair b) (Builder.withdrawal_keypair b)
    (Builder.amount b) dd (Builder.attestation_slashing_protection b)
    (Builder.block_slashing_protection b) (Builder.spec b) (Builder.slots_per_epoch b).

Definition with_slashing_dbs (att blk : option PathBuf) : ValidatorDirectoryBuilder :=
  mkBuilder (Builder.directory b) (Builder.voting_keypair b) (Builder.withdrawal_keypair b)
    (Builder.amount b) (Builder.deposit_data b) att blk
    (Builder.spec b) (Builder.slots_per_epoch b).

(** [spec]. *)
Definition set_spec (spec : ChainSpec) : ValidatorDirectoryBuilder := with_spec (Some spec).

(** [full_deposit_amount]. *)
Definition full_deposit_amount : result ValidatorDirectoryBuilder :=
  match Builder.spec b with
  | None => Err "full_deposit_amount requires a spec"
  | Some spec => Ok (with_amount (Some (max_effective_balance spec)))
  end.

(** [custom_deposit_amount]. *)
Definition custom_deposit_amount (gwei : N) : ValidatorDirectoryBuilder :=
  with_amount (Some gwei).

(** [thread_random_keypairs]: the two results of [Keypair::random()] are
    inputs of the model. *)
Definition thread_random_keypairs (random1 random2 : Keypair) : ValidatorDirectoryBuilder :=
  with_keypairs (Some random1) (Some random2).

(** [slots_per_epoch]. *)
Definition set_slots_per_epoch (spe : N) : ValidatorDirectoryBuilder :=
  with_slots_per_epoch (Some spe).

(** [insecure_keypairs]. *)
Definition insecure_keypairs (index : nat) : ValidatorDirectoryBuilder :=
  let keypair := generate_deterministic_keypair index in
  with_keypairs (Some keypair) (Some keypair).

(** [create_directory]. *)
Definition create_directory (base_path : PathBuf) : IO ValidatorDirectoryBuilder :=
  match Builder.voting_keypair b with
  | None => io_err "directory requires a voting_keypair"
  | Some voting_keypair =>
      let directory := join base_path (file_name (dir_name (pk voting_keypair))) in
      let* ex := path_exists directory in
      if ex then io_err ("Validator directory already exists: " ++ path_to_string directory) else
      let* _ := io_map_err (fun e => "Unable to create validator directory: " ++ e)
                           (create_dir_all directory) in
      io_ret (with_directory (Some directory))
  end.

(** [save_keypair]. *)
Definition save_keypair (keypair : Keypair) (file_prefix : string) : IO unit :=
  match Builder.directory b with
  | None => io_err "save_keypair requires a directory"
  | Some directory =>
      let path := join directory (file_name (keypair_file file_prefix)) in
      let* ex := path_exists path in
      if ex then io_err ("Keypair file already exists at: " ++ path_to_string path) else
      let* _ := io_map_err (fun e => "Unable to create file: " ++ e) (file_create path) in
      let* _ := io_map_err (fun e => "Unable to set file permissions: " ++ e)
                           (file_set_mode path (Z.lor S_IWUSR S_IRUSR)) in
      io_map_err (fun e => "Unable to write keypair to file: " ++ e)
                 (file_write_all path (keypair_as_ssz_bytes keypair))
  end.

(** [write_keypair_files]. *)
Definition write_keypair_files : IO ValidatorDirectoryBuilder :=
  match Builder.voting_keypair b with
  | None => io_err "write_keypair_files requires a voting_keypair"
  | Some voting_keypair =>
      match Builder.withdrawal_keypair b with
      | None => io_err "write_keypair_files requires a withdrawal_keypair"
      | Some withdrawal_keypair =>
          let* _ := save_keypair voting_keypair VOTING_KEY_PREFIX in
          let* _ := save_keypair withdrawal_keypair WITHDRAWAL_KEY_PREFIX in
          io_ret b
      end
  end.

(** The deposit data signed by the voting key (the [let deposit_data = {..}] block). *)
Definition make_deposit_data (voting_keypair withdrawal_keypair : Keypair) (amount : N)
    (spec : ChainSpec) : DepositData :=
  let withdrawal_credentials :=
    get_withdrawal_credentials (pk withdrawal_keypair) (bls_withdrawal_prefix_byte spec) in
  let unsigned := mkDepositData (pk voting_keypair) withdrawal_credentials amount empty_signature in
  mkDepositData (pk voting_keypair) withdrawal_credentials amount
                (create_signature unsigned (sk voting_keypair) spec).

(** The bytes of [format!("0x{}", hex::encode(&deposit_data))]. *)
Definition eth1_file_contents (deposit_data : list byte) : list byte :=
  list_byte_of_string ("0x" ++ string_of_list_byte (hex_encode deposit_data)).

(** [write_eth1_data_file]. *)
Definition write_eth1_data_file : IO ValidatorDirectoryBuilder :=
  match Builder.voting_keypair b, Builder.withdrawal_keypair b, Builder.amount b,
        Builder.spec b, Builder.directory b with
  | None, _, _, _, _ => io_err "write_eth1_data_file requires a voting_keypair"
  | _, None, _, _, _ => io_err "write_eth1_data_file requires a withdrawal_keypair"
  | _, _, None, _, _ => io_err "write_eth1_data_file requires an amount"
  | _, _, _, None, _ => io_err "build requires a spec"
  | _, _, _, _, None => io_err "write_eth1_data_file requires a directory"
  | Some vk, Some wk, Some amount, Some spec, Some directory =>
      let path := join directory (file_name ETH1_DEPOSIT_DATA_FILE) in
      match encode_eth1_tx_data (make_deposit_data vk wk amount spec) with
      | Err e => io_err ("Unable to encode eth1 deposit tx data: " ++ e)
      | Ok deposit_data =>
          let* ex := path_exists path in
          if ex then io_err ("Eth1 data file already exists at: " ++ path_to_string path) else
          let* _ := io_map_err (fun e => "Unable to create file: " ++ e) (file_create path) in
          let* _ := io_map_err (fun e => "Unable to write eth1 data file: " ++ e)
                               (file_write_all path (eth1_file_contents deposit_data)) in
          io_ret (with_deposit_data (Some deposit_data))
      end
  end.

(** [create_sqlite_slashing_dbs]; note that the block database is created
    at [path.join(&block_path)], as the source writes it. *)
Definition create_sqlite_slashing_dbs : IO ValidatorDirectoryBuilder :=
  match Builder.directory b with
  | None => io_err "create_sqlite_slashing_dbs requires a directory"
  | Some path =>
      let attestation_path := join path (file_name ATTESTER_SLASHING_DB) in
      let block_path := join path (file_name BLOCK_PRODUCER_SLASHING_DB) in
      let slots_per_epoch := Builder.slots_per_epoch b in
      let* _ := io_map_err (fun e => "Unable to create " ++ path_to_string attestation_path
                                       ++ ": " ++ e)
                           (history_new attestation_path None) in
      let* _ := io_map_err (fun e => "Unable to create " ++ path_to_string block_path
                                       ++ ": " ++ e)
                           (history_new (join path block_path) slots_per_epoch) in
      io_ret (with_slashing_dbs (Some attestation_path) (Some block_path))
  end.

(** [build]. *)
Definition build : result ValidatorDirectory :=
  match Builder.directory b with
  | None => Err "build requires a directory"
  | Some directory =>
      Ok {| directory := directory;
            voting_keypair := Builder.voting_keypair b;
            withdrawal_keypair := Builder.withdrawal_keypair b;
            deposit_data := Builder.deposit_data b;
            attestation_slashing_protection := Builder.attestation_slashing_protection b;
            block_slashing_protection := Builder.block_slashing_protection b;
            slots_per_epoch := Builder.slots_per_epoch b |}
  end.

End BuilderSteps.

(** *** Driving the builder *)

Inductive DepositAmount :=
| FullDeposit
| CustomDeposit (gwei : N).

(** The two key-generation policies; [RandomKeys] carries the two values
    [Keypair::random()] returned. *)
Inductive KeyPolicy :=
| RandomKeys (random1 random2 : Keypair)
| InsecureKeys (index : nat).

(** The (voting, withdrawal) keypairs a policy sets. *)
Definition policy_keypairs (keys : KeyPolicy) : Keypair * Keypair :=
  match keys with
  | RandomKeys r1 r2 => (r1, r2)
  | InsecureKeys index =>
      (generate_deterministic_keypair index, generate_deterministic_keypair index)
  end.

(** The chain of the tests [random_keypairs_round_trip] and
    [deterministic_keypairs_round_trip]:
    [default().spec(..).slots_per_epoch(..).<amount>.<keys>.create_directory(..)
     .write_keypair_files().write_eth1_data_file().create_sqlite_slashing_dbs().build()]. *)
Definition builder_pipeline (spec : ChainSpec) (spe : N) (amount : DepositAmount)
    (keys : KeyPolicy) (base_path : PathBuf) : IO ValidatorDirectory :=
  let b0 := set_slots_per_epoch (set_spec default_builder spec) spe in
  let* b1 := io_lift (match amount with
                      | FullDeposit => full_deposit_amount b0
                      | CustomDeposit gwei => Ok (custom_deposit_amount b0 gwei)
                      end) in
  let b2 := match keys with
            | RandomKeys r1 r2 => thread_random_keypairs b1 r1 r2
            | InsecureKeys index => insecure_keypairs b1 index
            end in
  let* b3 := create_directory b2 base_path in
  let* b4 := write_keypair_files b3 in
  let* b5 := write_eth1_data_file b4 in
  let* b6 := create_sqlite_slashing_dbs b5 in
  io_lift (build b6).

(** Any public method of the builder. *)
Inductive BuilderOp :=
| OpSpec (spec : ChainSpec)
| OpFullDepositAmount
| OpCustomDepositAmount (gwei : N)
| OpThreadRandomKeypairs (random1 random2 : Keypair)
| OpSlotsPerEpoch (spe : N)
| OpInsecureKeypairs (index : nat)
| OpCreateDirectory (base_path : PathBuf)
| OpWriteKeypairFiles
| OpWriteEth1DataFile
| OpCreateSqliteSlashingDbs.

Definition apply_op (op : BuilderOp) (b : ValidatorDirectoryBuilder) : IO ValidatorDirectoryBuilder :=
  match op with
  | OpSpec spec => io_ret (set_spec b spec)
  | OpFullDepositAmount => io_lift (full_deposit_amount b)
  | OpCustomDepositAmount gwei => io_ret (custom_deposit_amount b gwei)
  | OpThreadRandomKeypairs r1 r2 => io_ret (thread_random_keypairs b r1 r2)
  | OpSlotsPerEpoch spe => io_ret (set_slots_per_epoch b spe)
  | OpInsecureKeypairs index => io_ret (insecure_keypairs b index)
  | OpCreateDirectory base_path => create_directory b base_path
  | OpWriteKeypairFiles => write_keypair_files b
  | OpWriteEth1DataFile => write_eth1_data_file b
  | OpCreateSqliteSlashingDbs => create_sqlite_slashing_dbs b
  end.

(** A chain of builder calls, stopping at the first error ([?]). *)
Fixpoint run_ops (ops : list BuilderOp) (b : ValidatorDirectoryBuilder) : IO ValidatorDirectoryBuilder :=
  match ops with
  | [] => io_ret b
  | op :: ops' => let* b' := apply_op op b in run_ops ops' b'
  end.

(** A file system is a tree: every ancestor of an entry is a directory. *)
Definition fs_wf (m : gmap PathBuf Entry) : Prop :=
  forall p e, m !! p = Some e ->
  forall n, 0 < n < length (path_comps p) ->
  m !! mkPath (path_abs p) (firstn n (path_comps p)) = Some Dir.

End Program.

(** ** A concrete environment, to run the model on examples *)

Module Sample.

Definition byte_of (n : nat) : byte :=
  match Byte.of_nat (n mod 256) with Some b => b | None => Byte.x00 end.

Definition test_keypair (n : nat) : Keypair :=
  mkKeypair (mkSecretKey (repeat (byte_of (n + 1)) 32)) (mkPublicKey (repeat (byte_of n) 48)).

#[export] Instance env : Env := {|
  umask := 18;
  sqlite_image := fun _ => [Byte.x53; Byte.x51];
  pk_point_valid := fun _ => true;
  sk_scalar_valid := fun _ => true;
  generate_deterministic_keypair := test_keypair;
  get_withdrawal_credentials := fun p prefix => prefix :: firstn 31 (pk_bytes p);
  create_signature := fun _ s _ => firstn 4 (sk_bytes s);
  empty_signature := [];
  encode_eth1_tx_data := fun d => Ok (dd_withdrawal_credentials d ++ dd_signature d)%list
|}.

Definition spec : ChainSpec := mkChainSpec 32000000000 Byte.x00.

Definition base : PathBuf := mkPath true ["tmp"; "validators"].

Definition world0 : World := mkWorld ∅ [].

Definition base2 : PathBuf := mkPath true ["srv"; "keys"].

Definition kp42 : Keypair := test_keypair 42.

(** The directory the builder creates for [kp42] under [base]. *)
Definition vdir : PathBuf := join base (file_name (dir_name (pk kp42))).

Definition key_file (prefix : string) : PathBuf := join vdir (file_name (keypair_file prefix)).

Definition eth1_file : PathBuf := join vdir (file_name ETH1_DEPOSIT_DATA_FILE).

(** A builder that has reached [vdir]. *)
Definition builder_at_dir : ValidatorDirectoryBuilder :=
  mkBuilder (Some vdir) (Some kp42) (Some kp42) (Some 32000000000%N) None None None
            (Some spec) (Some 32%N).

(** [vdir] alone. *)
Definition world_dir : World := mkWorld (<[vdir := Dir]> ∅) [].

(** [vdir] with a voting key file and a deposit-data file already there. *)
Definition world_taken : World :=
  mkWorld (<[eth1_file := RegFile 420 (list_byte_of_string "0x00")]>
             (<[key_file VOTING_KEY_PREFIX := RegFile 384 [Byte.x01]]> (<[vdir := Dir]> ∅))) [].

(** [vdir] with a deposit-data file written with an upper-case X. *)
Definition world_bad_eth1 : World :=
  mkWorld (<[eth1_file := RegFile 420 (list_byte_of_string "0X00")]> (<[vdir := Dir]> ∅)) [].

(** [vdir] with its two stores, the block store holding [sp]. *)
Definition store_fs (sp : StoredParam) : gmap PathBuf Entry :=
  <[join vdir (file_name BLOCK_PRODUCER_SLASHING_DB) := SqliteStore sp]>
    (<[join vdir (file_name ATTESTER_SLASHING_DB) := SqliteStore PUnset]> (<[vdir := Dir]> ∅)).

Definition world_stores (sp : StoredParam) : World := mkWorld (store_fs sp) [].

(** The same with a voting key file, and no withdrawal or deposit-data file. *)
Definition world_signing (sp : StoredParam) : World :=
  mkWorld (<[key_file VOTING_KEY_PREFIX := RegFile 384 (keypair_as_ssz_bytes kp42)]> (store_fs sp)) [].

(** A builder holding [kp42] as both keypairs, before [create_directory]. *)
Definition builder_keys : ValidatorDirectoryBuilder :=
  mkBuilder None (Some kp42) (Some kp42) (Some 32000000000%N) None None None
            (Some spec) (Some 32%N).

(** [vdir] with a withdrawal key file already there. *)
Definition world_withdrawal_taken : World :=
  mkWorld (<[key_file WITHDRAWAL_KEY_PREFIX := RegFile 384 [Byte.x02]]> (<[vdir := Dir]> ∅)) [].




(** The file system after one successful run of the builder chain for [kp42]. *)
Definition world_after_run : World :=
  snd (builder_pipeline spec 32 FullDeposit (InsecureKeys 42) base world0).

End Sample.

(** * Proofs *)

Section Proofs.
Context `{Env}.
Local Open Scope list_scope.

Ltac io_unfold :=
  unfold io_bind, io_ret, io_err, io_lift, io_map_err, io_ok, path_exists, modify_fs,
    file_create, file_set_mode, file_write_all, file_open, read_to_end,
    history_new, history_open in *.

(** ** Hexadecimal *)

Lemma hex_byte_facts (b : byte) :
  match hex_encode_byte b with
  | [c1; c2] =>
      match hex_val c1, hex_val c2 with
      | Some hi, Some lo => Byte.of_nat (hi * 16 + lo) = Some b
      | _, _ => False
      end
  | _ => False
  end.
Proof. destruct b; vm_compute; reflexivity. Qed.

Lemma hex_decode_pairs_byte (b : byte) (rest : list byte) :
  hex_decode_pairs (hex_encode_byte b ++ rest) =
  result_bind (hex_decode_pairs rest) (fun t => Ok (b :: t)).
Proof.
  pose proof (hex_byte_facts b) as Hb.
  destruct (hex_encode_byte b) as [|c1 [|c2 [|]]]; try contradiction.
  simpl. destruct (hex_val c1), (hex_val c2); try contradiction.
  rewrite Hb. reflexivity.
Qed.

Lemma length_hex_encode (l : list byte) : length (hex_encode l) = 2 * length l.
Proof.
  induction l as [|b l IH]; [reflexivity|].
  unfold hex_encode in *. cbn [flat_map]. rewrite length_app, IH. simpl. lia.
Qed.

Lemma hex_decode_encode (l : list byte) : hex_decode (hex_encode l) = Ok l.
Proof.
  unfold hex_decode. rewrite length_hex_encode, Nat.odd_mul. simpl.
  induction l as [|b l IH]; [reflexivity|].
  unfold hex_encode in *. cbn [flat_map]. rewrite hex_decode_pairs_byte, IH.
  reflexivity.
Qed.

Lemma hex_encode_inj (l1 l2 : list byte) : hex_encode l1 = hex_encode l2 -> l1 = l2.
Proof.
  intros E. pose proof (hex_decode_encode l1) as E1.
  rewrite E, hex_decode_encode in E1. congruence.
Qed.

Lemma hex_encode_byte_lower (b : byte) : forallb is_lower_hex (hex_encode_byte b) = true.
Proof. destruct b; reflexivity. Qed.

Lemma hex_encode_lower (l : list byte) : Forall (fun c => is_lower_hex c = true) (hex_encode l).
Proof.
  induction l as [|b l IH]; [constructor|].
  unfold hex_encode in *. cbn [flat_map]. apply Forall_app. split; [|exact IH].
  apply Forall_forall. intros c Hc.
  pose proof (hex_encode_byte_lower b) as Hl. rewrite forallb_forall in Hl. apply Hl. by apply list_elem_of_In.
Qed.

Lemma list_byte_of_string_append (s1 s2 : string) :
  list_byte_of_string (s1 ++ s2)%string = list_byte_of_string s1 ++ list_byte_of_string s2.
Proof.
  unfold list_byte_of_string.
  induction s1 as [|a s1 IH]; [reflexivity|]. simpl. f_equal. exact IH.
Qed.

Lemma eth1_file_contents_eq (dd : list byte) :
  eth1_file_contents dd = hex_prefix ++ hex_encode dd.
Proof.
  unfold eth1_file_contents.
  rewrite list_byte_of_string_append, list_byte_of_string_of_list_byte.
  reflexivity.
Qed.

(** ** Keys *)

Lemma keypair_ssz_roundtrip (kp : Keypair) :
  keypair_wf kp -> keypair_from_ssz_bytes (keypair_as_ssz_bytes kp) = Ok kp.
Proof.
  destruct kp as [[s] [p]]. unfold keypair_wf, keypair_as_ssz_bytes. simpl.
  intros (Hp & Hpv & Hs & Hsv).
  assert (E1 : firstn 48 (p ++ s) = p).
  { rewrite <- Hp, firstn_app, Nat.sub_diag, firstn_all. apply app_nil_r. }
  assert (E2 : skipn 48 (p ++ s) = s).
  { rewrite <- Hp, skipn_app, Nat.sub_diag, skipn_all. reflexivity. }
  unfold keypair_from_ssz_bytes. rewrite length_app, Hp, Hs, E1, E2.
  unfold public_key_from_ssz_bytes, secret_key_from_ssz_bytes.
  rewrite Hp, Hs, Hpv, Hsv. reflexivity.
Qed.

(** ** Paths *)

Lemma join_file_name (d : PathBuf) (x : string) :
  join d (file_name x) = mkPath (path_abs d) (path_comps d ++ [x]).
Proof. reflexivity. Qed.

Lemma child_ne (d : PathBuf) (x y : string) :
  x <> y -> join d (file_name x) <> join d (file_name y).
Proof.
  rewrite !join_file_name. intros Hxy E. injection E as E.
  apply app_inj_tail in E. destruct E; congruence.
Qed.

Lemma child_ne_self (d : PathBuf) (x : string) : join d (file_name x) <> d.
Proof.
  rewrite join_file_name. destruct d as [a c]. intros E. injection E as E.
  apply (f_equal (@length string)) in E. rewrite length_app in E. simpl in E. lia.
Qed.

(** ** The steps of the builder *)

Lemma owner_rw_value : owner_rw = 384%Z.
Proof. reflexivity. Qed.

Lemma save_keypair_ok (b : ValidatorDirectoryBuilder) (kp : Keypair) (prefix : string)
    (w w' : World) (r : unit) :
  save_keypair b kp prefix w = (Ok r, w') ->
  exists d, Builder.directory b = Some d /\
  let p := join d (file_name (keypair_file prefix)) in
  fs w !! p = None /\
  fs w' = <[p := RegFile owner_rw (keypair_as_ssz_bytes kp)]> (fs w) /\
  trace w' = trace w ++ [ECreate p; ESetMode p owner_rw; EWrite p (keypair_as_ssz_bytes kp)].
Proof.
  unfold save_keypair. destruct (Builder.directory b) as [d|]; io_unfold;
    [|congruence].
  set (p := join d (file_name (keypair_file prefix))).
  destruct (fs w !! p) eqn:Ep; [congruence|].
  destruct (parent_is_dir (fs w) p); [|simpl; congruence].
  rewrite Ep. simpl. rewrite lookup_insert_eq. simpl. rewrite lookup_insert_eq. simpl.
  intros E. injection E as <- <-. exists d. simpl. split; [reflexivity|].
  split; [exact Ep|]. split.
  - rewrite !insert_insert_eq. reflexivity.
  - rewrite <- !app_assoc. reflexivity.
Qed.


Lemma write_keypair_files_ok (b b' : ValidatorDirectoryBuilder) (w w' : World) :
  write_keypair_files b w = (Ok b', w') ->
  b' = b /\
  exists d vk wk,
    Builder.directory b = Some d /\ Builder.voting_keypair b = Some vk /\
    Builder.withdrawal_keypair b = Some wk /\
    let pv := join d (file_name (keypair_file VOTING_KEY_PREFIX)) in
    let pw := join d (file_name (keypair_file WITHDRAWAL_KEY_PREFIX)) in
    fs w !! pv = None /\ fs w !! pw = None /\
    fs w' = <[pw := RegFile owner_rw (keypair_as_ssz_bytes wk)]>
              (<[pv := RegFile owner_rw (keypair_as_ssz_bytes vk)]> (fs w)) /\
    trace w' = trace w ++ [ECreate pv; ESetMode pv owner_rw; EWrite pv (keypair_as_ssz_bytes vk);
                           ECreate pw; ESetMode pw owner_rw; EWrite pw (keypair_as_ssz_bytes wk)].
Proof.
  unfold write_keypair_files.
  destruct (Builder.voting_keypair b) as [vk|] eqn:Evk; [|io_unfold; congruence].
  destruct (Builder.withdrawal_keypair b) as [wk|] eqn:Ewk; [|io_unfold; congruence].
  unfold io_bind.
  destruct (save_keypair b vk VOTING_KEY_PREFIX w) as [[u1|e] w1] eqn:E1; [|congruence].
  destruct (save_keypair b wk WITHDRAWAL_KEY_PREFIX w1) as [[u2|e] w2] eqn:E2; [|congruence].
  unfold io_ret. intros E. injection E as <- <-. split; [reflexivity|].
  apply save_keypair_ok in E1 as (d & Ed & Hv1 & Hfs1 & Htr1).
  apply save_keypair_ok in E2 as (d' & Ed' & Hv2 & Hfs2 & Htr2).
  rewrite Ed in Ed'. injection Ed' as <-.
  exists d, vk, wk. do 3 (split; [reflexivity || assumption|]).
  assert (Hne : join d (file_name (keypair_file VOTING_KEY_PREFIX)) <>
                join d (file_name (keypair_file WITHDRAWAL_KEY_PREFIX))).
  { apply child_ne. vm_compute. intros E. discriminate E. }
  cbv zeta. rewrite Hfs1, lookup_insert_ne in Hv2 by exact Hne.
  split; [assumption|]. split; [assumption|]. split.
  - rewrite Hfs2, Hfs1. reflexivity.
  - rewrite Htr2, Htr1, <- app_assoc. reflexivity.
Qed.

Lemma write_eth1_data_file_ok (b b' : ValidatorDirectoryBuilder) (w w' : World) :
  write_eth1_data_file b w = (Ok b', w') ->
  exists vk wk amount spec d dd,
    Builder.voting_keypair b = Some vk /\ Builder.withdrawal_keypair b = Some wk /\
    Builder.amount b = Some amount /\ Builder.spec b = Some spec /\
    Builder.directory b = Some d /\
    encode_eth1_tx_data (make_deposit_data vk wk amount spec) = Ok dd /\
    b' = with_deposit_data b (Some dd) /\
    let pe := join d (file_name ETH1_DEPOSIT_DATA_FILE) in
    fs w !! pe = None /\
    fs w' = <[pe := RegFile default_file_mode (eth1_file_contents dd)]> (fs w) /\
    trace w' = trace w ++ [ECreate pe; EWrite pe (eth1_file_contents dd)].
Proof.
  unfold write_eth1_data_file.
  destruct (Builder.voting_keypair b) as [vk|]; [|io_unfold; congruence].
  destruct (Builder.withdrawal_keypair b) as [wk|]; [|io_unfold; congruence].
  destruct (Builder.amount b) as [amount|]; [|io_unfold; congruence].
  destruct (Builder.spec b) as [spec|]; [|io_unfold; congruence].
  destruct (Builder.directory b) as [d|]; [|io_unfold; congruence].
  destruct (encode_eth1_tx_data (make_deposit_data vk wk amount spec)) as [dd|e] eqn:Eenc;
    [|io_unfold; congruence].
  io_unfold. set (pe := join d (file_name ETH1_DEPOSIT_DATA_FILE)).
  destruct (fs w !! pe) eqn:Epe; [congruence|].
  destruct (parent_is_dir (fs w) pe); [|simpl; congruence].
  rewrite Epe. simpl. rewrite lookup_insert_eq. simpl.
  intros E. injection E as <- <-.
  exists vk, wk, amount, spec, d, dd. do 7 (split; [reflexivity || assumption|]).
  simpl. split; [assumption|]. split.
  - rewrite insert_insert_eq. reflexivity.
  - rewrite <- app_assoc. reflexivity.
Qed.

Lemma create_sqlite_slashing_dbs_ok (b b' : ValidatorDirectoryBuilder) (w w' : World) :
  create_sqlite_slashing_dbs b w = (Ok b', w') ->
  exists d, Builder.directory b = Some d /\
  let att := join d (file_name ATTESTER_SLASHING_DB) in
  let blk := join d (file_name BLOCK_PRODUCER_SLASHING_DB) in
  let sp := match Builder.slots_per_epoch b with Some v => PSet v | None => PUnset end in
  b' = with_slashing_dbs b (Some att) (Some blk) /\
  fs w !! att = None /\
  <[att := SqliteStore PUnset]> (fs w) !! join d blk = None /\
  parent_is_dir (<[att := SqliteStore PUnset]> (fs w)) (join d blk) = true /\
  fs w' = <[join d blk := SqliteStore sp]> (<[att := SqliteStore PUnset]> (fs w)).
Proof.
  unfold create_sqlite_slashing_dbs.
  destruct (Builder.directory b) as [d|]; [|io_unfold; congruence].
  io_unfold.
  set (att := join d (file_name ATTESTER_SLASHING_DB)).
  set (blk := join d (file_name BLOCK_PRODUCER_SLASHING_DB)).
  destruct (fs w !! att) eqn:Ea; [simpl; congruence|].
  destruct (parent_is_dir (fs w) att); [|simpl; congruence].
  simpl.
  destruct (<[att:=SqliteStore PUnset]> (fs w) !! join d blk) eqn:Eb; [simpl; congruence|].
  destruct (parent_is_dir (<[att:=SqliteStore PUnset]> (fs w)) (join d blk)) eqn:Epb;
    [|simpl; congruence].
  simpl. intros E. injection E as <- <-.
  exists d. split; [reflexivity|]. cbv zeta.
  split; [reflexivity|]. split; [assumption|]. split; [assumption|].
  split; [assumption|]. reflexivity.
Qed.


Lemma mkdirs_ok (qs : list PathBuf) (w w' : World) (u : unit) :
  mkdirs qs w = (Ok u, w') ->
  (forall q, In q qs -> fs w' !! q = Some Dir) /\
  (forall q, ~ In q qs -> fs w' !! q = fs w !! q).
Proof.
  revert w. induction qs as [|q qs IH]; intros w; simpl.
  - intros E. injection E as _ <-. split; [intros _ []|auto].
  - destruct (fs w !! q) as [[| |]|] eqn:Eq; try congruence.
    + intros E. apply IH in E as [A B]. split.
      * intros q' [<-|Hin]; [|auto].
        destruct (in_dec PathBuf_eq_dec q qs); [auto|]. rewrite B; assumption.
      * intros q' Hq'. apply B. tauto.
    + unfold io_bind, modify_fs. simpl. intros E. apply IH in E as [A B]. simpl in B.
      split.
      * intros q' [<-|Hin]; [|auto].
        destruct (in_dec PathBuf_eq_dec q qs); [auto|]. rewrite B by assumption.
        apply lookup_insert_eq.
      * intros q' Hq'. rewrite B by tauto. apply lookup_insert_ne. tauto.
Qed.

Lemma prefixes_self (d : PathBuf) : path_comps d <> [] -> In d (prefixes d).
Proof.
  intros Hne. unfold prefixes. apply in_map_iff.
  exists (length (path_comps d)). split.
  - rewrite firstn_all. destruct d; reflexivity.
  - apply in_seq. destruct (path_comps d); [congruence|]. simpl. lia.
Qed.

Lemma prefixes_length (d q : PathBuf) :
  In q (prefixes d) -> length (path_comps q) <= length (path_comps d).
Proof.
  unfold prefixes. intros (n & <- & _)%in_map_iff. simpl.
  rewrite length_firstn. lia.
Qed.

Lemma create_directory_ok (b b' : ValidatorDirectoryBuilder) (base_path : PathBuf)
    (w w' : World) :
  create_directory b base_path w = (Ok b', w') ->
  exists vk, Builder.voting_keypair b = Some vk /\
  let d := join base_path (file_name (dir_name (pk vk))) in
  b' = with_directory b (Some d) /\
  fs w !! d = None /\
  (forall q, In q (prefixes d) -> fs w' !! q = Some Dir) /\
  (forall q, ~ In q (prefixes d) -> fs w' !! q = fs w !! q).
Proof.
  unfold create_directory.
  destruct (Builder.voting_keypair b) as [vk|]; [|io_unfold; congruence].
  unfold io_bind, path_exists, io_map_err, io_err, io_ret.
  set (d := join base_path (file_name (dir_name (pk vk)))).
  destruct (fs w !! d) eqn:Ed; [congruence|].
  unfold create_dir_all.
  destruct (mkdirs (prefixes d) w) as [[u|e] w1] eqn:Em; simpl; [|congruence].
  intros E. injection E as <- <-. apply mkdirs_ok in Em as [A B].
  exists vk. split; [reflexivity|]. cbv zeta. auto.
Qed.

(** ** Reading files back *)

Lemma load_keypair_of_file (d : PathBuf) (prefix : string) (w : World) (m : Z) (kp : Keypair) :
  fs w !! join d (file_name (keypair_file prefix)) = Some (RegFile m (keypair_as_ssz_bytes kp)) ->
  keypair_wf kp ->
  load_keypair d prefix w = (Ok kp, w).
Proof.
  intros E Hwf. rewrite join_file_name in E. unfold load_keypair. io_unfold.
  cbn -[keypair_from_ssz_bytes keypair_as_ssz_bytes].
  repeat (rewrite E; cbn -[keypair_from_ssz_bytes keypair_as_ssz_bytes]).
  rewrite keypair_ssz_roundtrip by exact Hwf. reflexivity.
Qed.

Lemma load_eth1_of_file (d : PathBuf) (w : World) (m : Z) (dd : list byte) :
  fs w !! join d (file_name ETH1_DEPOSIT_DATA_FILE) = Some (RegFile m (eth1_file_contents dd)) ->
  load_eth1_deposit_data d w = (Ok dd, w).
Proof.
  intros E. rewrite eth1_file_contents_eq, join_file_name in E.
  unfold load_eth1_deposit_data. io_unfold. cbn -[hex_decode hex_encode].
  repeat (rewrite E; cbn -[hex_decode hex_encode]). rewrite hex_decode_encode. reflexivity.
Qed.


Lemma load_keypair_pure (d : PathBuf) (prefix : string) (w : World) :
  snd (load_keypair d prefix w) = w.
Proof.
  unfold load_keypair. io_unfold. cbn.
  repeat (match goal with |- context [fs w !! ?p] => destruct (fs w !! p) as [[| |]|] end;
          cbn); reflexivity.
Qed.

Lemma load_eth1_deposit_data_pure (d : PathBuf) (w : World) :
  snd (load_eth1_deposit_data d w) = w.
Proof.
  unfold load_eth1_deposit_data. io_unfold. cbn.
  repeat (match goal with |- context [fs w !! ?p] => destruct (fs w !! p) as [[| |]|] end;
          cbn); reflexivity.
Qed.


Lemma builder_pipeline_ok (spec : ChainSpec) (spe : N) (amount : DepositAmount)
    (keys : KeyPolicy) (base_path : PathBuf) (w w' : World) (built : ValidatorDirectory) :
  builder_pipeline spec spe amount keys base_path w = (Ok built, w') ->
  exists vk wk dd w1,
    policy_keypairs keys = (vk, wk) /\
    let d := join base_path (file_name (dir_name (pk vk))) in
    let pv := join d (file_name (keypair_file VOTING_KEY_PREFIX)) in
    let pw := join d (file_name (keypair_file WITHDRAWAL_KEY_PREFIX)) in
    let pe := join d (file_name ETH1_DEPOSIT_DATA_FILE) in
    let att := join d (file_name ATTESTER_SLASHING_DB) in
    let blk := join d (file_name BLOCK_PRODUCER_SLASHING_DB) in
    let m3 := <[pe := RegFile default_file_mode (eth1_file_contents dd)]>
                (<[pw := RegFile owner_rw (keypair_as_ssz_bytes wk)]>
                   (<[pv := RegFile owner_rw (keypair_as_ssz_bytes vk)]> (fs w1))) in
    built = mkValidatorDirectory d (Some vk) (Some wk) (Some dd) (Some att) (Some blk) (Some spe) /\
    fs w !! d = None /\
    (forall q, In q (prefixes d) -> fs w1 !! q = Some Dir) /\
    (forall q, ~ In q (prefixes d) -> fs w1 !! q = fs w !! q) /\
    parent_is_dir (<[att := SqliteStore PUnset]> m3) (join d blk) = true /\
    fs w' = <[join d blk := SqliteStore (PSet spe)]> (<[att := SqliteStore PUnset]> m3).
Proof.
  unfold builder_pipeline, io_bind, io_lift.
  set (b0 := set_slots_per_epoch (set_spec default_builder spec) spe).
  destruct (match amount with
            | FullDeposit => full_deposit_amount b0
            | CustomDeposit gwei => Ok (custom_deposit_amount b0 gwei)
            end) as [b1|e] eqn:Eb1; [|congruence].
  assert (Hb1 : Builder.slots_per_epoch b1 = Some spe /\ Builder.directory b1 = None).
  { destruct amount; simpl in Eb1; injection Eb1 as <-; split; reflexivity. }
  set (b2 := match keys with
             | RandomKeys r1 r2 => thread_random_keypairs b1 r1 r2
             | InsecureKeys index => insecure_keypairs b1 index
             end).
  assert (Hb2 : Builder.slots_per_epoch b2 = Some spe /\
                Builder.voting_keypair b2 = Some (fst (policy_keypairs keys)) /\
                Builder.withdrawal_keypair b2 = Some (snd (policy_keypairs keys))).
  { destruct keys; simpl; repeat split; apply Hb1. }
  destruct (create_directory b2 base_path w) as [[b3|e] w1] eqn:E3; [|congruence].
  destruct (write_keypair_files b3 w1) as [[b4|e] w2] eqn:E4; [|congruence].
  destruct (write_eth1_data_file b4 w2) as [[b5|e] w3] eqn:E5; [|congruence].
  destruct (create_sqlite_slashing_dbs b5 w3) as [[b6|e] w4] eqn:E6; [|congruence].
  intros Hrun.
  apply create_directory_ok in E3 as (vk & Evk & Eb3 & Hd & Hin & Hout).
  apply write_keypair_files_ok in E4 as (-> & d4 & vk4 & wk & Ed4 & Evk4 & Ewk4 & _ & _ & Hfs2 & _).
  apply write_eth1_data_file_ok in E5
    as (vk5 & wk5 & amt & sp5 & d5 & dd & Evk5 & Ewk5 & _ & _ & Ed5 & _ & Eb5 & _ & Hfs3 & _).
  apply create_sqlite_slashing_dbs_ok in E6 as (d6 & Ed6 & Eb6 & _ & _ & Hpar & Hfs4).
  destruct Hb2 as (Hspe2 & Hvk2 & Hwk2).
  rewrite Hvk2 in Evk. injection Evk as Evk. subst vk.
  subst b3. simpl in Ed4, Evk4, Ewk4.
  injection Ed4 as <-. rewrite Hvk2 in Evk4. injection Evk4 as <-.
  rewrite Hwk2 in Ewk4. injection Ewk4 as <-.
  subst b5. simpl in Ed6, Hfs4, Hpar, Eb6.
  simpl in Ed5, Evk5, Ewk5. injection Ed5 as <-.
  rewrite Hvk2 in Evk5. injection Evk5 as <-. rewrite Hwk2 in Ewk5. injection Ewk5 as <-.
  injection Ed6 as <-. subst b6. rewrite Hspe2 in Hfs4.
  simpl in Hrun. injection Hrun as <- <-.
  exists (fst (policy_keypairs keys)), (snd (policy_keypairs keys)), dd, w1.
  split; [destruct (policy_keypairs keys); reflexivity|].
  cbv zeta. rewrite <- Hfs2, <- Hfs3. rewrite Hspe2.
  rewrite Hvk2, Hwk2. repeat split; try reflexivity; assumption.
Qed.


(** ** Lookups after the builder's writes *)

Lemma join_abs (p q : PathBuf) : path_abs q = true -> join p q = q.
Proof. unfold join. intros ->. reflexivity. Qed.

Lemma lookup_insert_child_ne (m : gmap PathBuf Entry) (d : PathBuf) (x y : string) (e : Entry) :
  x <> y ->
  <[join d (file_name x) := e]> m !! join d (file_name y) = m !! join d (file_name y).
Proof. intros Hxy. apply lookup_insert_ne, child_ne, Hxy. Qed.

Lemma lookup_insert_child_self (m : gmap PathBuf Entry) (d : PathBuf) (x : string) (e : Entry) :
  <[join d (file_name x) := e]> m !! d = m !! d.
Proof. apply lookup_insert_ne, child_ne_self. Qed.

Lemma lookup_insert_dir (m : gmap PathBuf Entry) (p q : PathBuf) (e : Entry) :
  e <> Dir -> <[p := e]> m !! q = Some Dir -> m !! q = Some Dir.
Proof.
  intros He. destruct (decide (p = q)) as [<-|Hne].
  - rewrite lookup_insert_eq. congruence.
  - rewrite lookup_insert_ne by exact Hne. auto.
Qed.

Lemma parent_dir_lookup (m : gmap PathBuf Entry) (p : PathBuf) :
  parent_is_dir m p = true -> removelast (path_comps p) <> [] -> m !! parent p = Some Dir.
Proof.
  unfold parent_is_dir. destruct (removelast (path_comps p)); [congruence|].
  destruct (m !! parent p) as [[| |]|]; congruence.
Qed.

Ltac names_ne := let E := fresh in intros E; vm_compute in E; discriminate E.

Ltac lookup_child :=
  repeat (rewrite lookup_insert_child_ne by names_ne);
  repeat (rewrite lookup_insert_child_self);
  try apply lookup_insert_eq.

Lemma load_for_signing_ok_of (d : PathBuf) (spe : N) (w : World) (e0 e1 : Entry)
    (sp : StoredParam) (v : N) (vk : Keypair) :
  fs w !! d = Some e0 ->
  fs w !! join d (file_name ATTESTER_SLASHING_DB) = Some e1 ->
  fs w !! join d (file_name BLOCK_PRODUCER_SLASHING_DB) = Some (SqliteStore sp) ->
  param_read sp (Some spe) = Ok v ->
  fst (load_keypair d VOTING_KEY_PREFIX w) = Ok vk ->
  load_for_signing d spe w =
  (Ok (mkValidatorDirectory d (Some vk)
         (result_ok (fst (load_keypair d WITHDRAWAL_KEY_PREFIX w)))
         (result_ok (fst (load_eth1_deposit_data d w)))
         (Some (join d (file_name ATTESTER_SLASHING_DB)))
         (Some (join d (file_name BLOCK_PRODUCER_SLASHING_DB)))
         (Some v)), w).
Proof.
  intros Hd Ha Hb Hp Hv.
  pose proof (load_keypair_pure d VOTING_KEY_PREFIX w) as Pv.
  pose proof (load_keypair_pure d WITHDRAWAL_KEY_PREFIX w) as Pw.
  pose proof (load_eth1_deposit_data_pure d w) as Pe.
  unfold load_for_signing. io_unfold.
  cbn -[load_keypair load_eth1_deposit_data join].
  repeat (first [rewrite Hd | rewrite Ha | rewrite Hb];
          cbn -[load_keypair load_eth1_deposit_data join]).
  unfold slots_per_epoch_of. simpl history_slots_per_epoch. rewrite Hp.
  destruct (load_keypair d VOTING_KEY_PREFIX w) as [r1 w1]. simpl in Pv, Hv. subst.
  destruct (load_keypair d WITHDRAWAL_KEY_PREFIX w) as [r2 w2]. simpl in Pw. subst.
  destruct (load_eth1_deposit_data d w) as [r3 w3]. simpl in Pe. subst.
  reflexivity.
Qed.


(** ** Inversion of [load_for_signing] *)

Lemma load_for_signing_inv (d : PathBuf) (spe : N) (w w' : World) (r : ValidatorDirectory) :
  load_for_signing d spe w = (Ok r, w') ->
  w' = w /\ fs w !! d <> None /\
  fs w !! join d (file_name ATTESTER_SLASHING_DB) <> None /\
  exists sp v vk,
    fs w !! join d (file_name BLOCK_PRODUCER_SLASHING_DB) = Some (SqliteStore sp) /\
    param_read sp (Some spe) = Ok v /\
    fst (load_keypair d VOTING_KEY_PREFIX w) = Ok vk /\
    r = mkValidatorDirectory d (Some vk)
          (result_ok (fst (load_keypair d WITHDRAWAL_KEY_PREFIX w)))
          (result_ok (fst (load_eth1_deposit_data d w)))
          (Some (join d (file_name ATTESTER_SLASHING_DB)))
          (Some (join d (file_name BLOCK_PRODUCER_SLASHING_DB)))
          (Some v).
Proof.
  unfold load_for_signing. io_unfold.
  cbn -[load_keypair load_eth1_deposit_data join path_to_string].
  destruct (fs w !! d) as [e0|] eqn:Ed;
    cbn -[load_keypair load_eth1_deposit_data join path_to_string]; [|congruence].
  destruct (fs w !! join d (file_name ATTESTER_SLASHING_DB)) as [e1|] eqn:Ea;
    cbn -[load_keypair load_eth1_deposit_data join path_to_string];
  destruct (fs w !! join d (file_name BLOCK_PRODUCER_SLASHING_DB)) as [[| |sp]|] eqn:Eb;
    cbn -[load_keypair load_eth1_deposit_data join path_to_string];
    try rewrite Eb; cbn -[load_keypair load_eth1_deposit_data join path_to_string];
    try congruence.
  unfold slots_per_epoch_of. simpl history_slots_per_epoch.
  destruct (param_read sp (Some spe)) as [v|e] eqn:Ep; [|congruence].
  pose proof (load_keypair_pure d VOTING_KEY_PREFIX w) as Pv.
  pose proof (load_keypair_pure d WITHDRAWAL_KEY_PREFIX w) as Pw.
  pose proof (load_eth1_deposit_data_pure d w) as Pe.
  destruct (load_keypair d VOTING_KEY_PREFIX w) as [[vk|e] w1] eqn:Ev;
    simpl in Pv; subst w1; cbn -[load_keypair load_eth1_deposit_data join path_to_string];
    [|congruence].
  destruct (load_keypair d WITHDRAWAL_KEY_PREFIX w) as [r2 w2];
    simpl in Pw; subst w2.
  destruct (load_eth1_deposit_data d w) as [r3 w3];
    simpl in Pe; subst w3. cbn -[load_keypair load_eth1_deposit_data join path_to_string].
  intros E. injection E as <- <-.
  split; [reflexivity|]. split; [congruence|]. split; [congruence|].
  exists sp, v, vk. split; [reflexivity|]. split; [assumption|]. split; [reflexivity|].
  destruct r2, r3; reflexivity.
Qed.

(** ** Failed writes *)

Lemma save_keypair_err_pure (b : ValidatorDirectoryBuilder) (kp : Keypair) (prefix : string)
    (w w' : World) (e : string) :
  save_keypair b kp prefix w = (Err e, w') -> w' = w.
Proof.
  unfold save_keypair. destruct (Builder.directory b) as [d|]; io_unfold;
    [|congruence].
  set (p := join d (file_name (keypair_file prefix))).
  destruct (fs w !! p) eqn:Ep; [congruence|].
  destruct (parent_is_dir (fs w) p); [|simpl; congruence].
  rewrite Ep. simpl. rewrite lookup_insert_eq. simpl. rewrite lookup_insert_eq. simpl.
  congruence.
Qed.

Lemma save_keypair_existing (b : ValidatorDirectoryBuilder) (kp : Keypair) (prefix : string)
    (w : World) (d : PathBuf) :
  Builder.directory b = Some d ->
  fs w !! join d (file_name (keypair_file prefix)) <> None ->
  exists e, save_keypair b kp prefix w = (Err e, w).
Proof.
  intros Hd Hex. unfold save_keypair. rewrite Hd. io_unfold.
  destruct (fs w !! join d (file_name (keypair_file prefix))); [|congruence].
  eexists. reflexivity.
Qed.

Lemma save_keypair_keeps (b : ValidatorDirectoryBuilder) (kp : Keypair) (prefix : string)
    (w w' : World) (r : result unit) :
  save_keypair b kp prefix w = (r, w') ->
  forall q x, fs w !! q = Some x -> fs w' !! q = Some x.
Proof.
  intros E q x Hq. destruct r as [u|e].
  - apply save_keypair_ok in E as (d & _ & Hp & Hfs & _).
    rewrite Hfs, lookup_insert_ne; [exact Hq|congruence].
  - apply save_keypair_err_pure in E. subst. exact Hq.
Qed.

Lemma load_for_signing_pure (d : PathBuf) (spe : N) (w : World) :
  snd (load_for_signing d spe w) = w.
Proof.
  unfold load_for_signing. io_unfold.
  cbn -[load_keypair load_eth1_deposit_data join path_to_string].
  destruct (fs w !! d); cbn -[load_keypair load_eth1_deposit_data join path_to_string];
    [|reflexivity].
  destruct (fs w !! join d (file_name ATTESTER_SLASHING_DB));
    cbn -[load_keypair load_eth1_deposit_data join path_to_string];
  destruct (fs w !! join d (file_name BLOCK_PRODUCER_SLASHING_DB)) as [[| |sp]|] eqn:Eb;
    cbn -[load_keypair load_eth1_deposit_data join path_to_string];
    try rewrite Eb; cbn -[load_keypair load_eth1_deposit_data join path_to_string];
    try reflexivity.
  unfold slots_per_epoch_of. simpl history_slots_per_epoch.
  destruct (param_read sp (Some spe)); [|reflexivity].
  pose proof (load_keypair_pure d VOTING_KEY_PREFIX w) as Pv.
  pose proof (load_keypair_pure d WITHDRAWAL_KEY_PREFIX w) as Pw.
  pose proof (load_eth1_deposit_data_pure d w) as Pe.
  destruct (load_keypair d VOTING_KEY_PREFIX w) as [[vk|err] w1];
    simpl in Pv; subst w1; cbn -[load_keypair load_eth1_deposit_data join path_to_string];
    [|reflexivity].
  destruct (load_keypair d WITHDRAWAL_KEY_PREFIX w) as [r2 w2]; simpl in Pw; subst w2.
  destruct (load_eth1_deposit_data d w) as [r3 w3]; simpl in Pe; subst w3.
  reflexivity.
Qed.

Lemma load_for_signing_err (d : PathBuf) (spe : N) (w : World) :
  (forall r w', load_for_signing d spe w <> (Ok r, w')) ->
  exists e, load_for_signing d spe w = (Err e, w).
Proof.
  intros Hnot. pose proof (load_for_signing_pure d spe w) as P.
  destruct (load_for_signing d spe w) as [[r|e] w'] eqn:E.
  - exfalso. exact (Hnot r w' eq_refl).
  - simpl in P. subst. exists e. reflexivity.
Qed.

Lemma strip_0x_some (c rest : list byte) :
  strip_0x c = Some rest -> c = hex_prefix ++ rest.
Proof.
  destruct c as [|b0 [|b1 r]]; simpl; try congruence.
  destruct (Byte.eqb b0 Byte.x30) eqn:E0; destruct (Byte.eqb b1 Byte.x78) eqn:E1;
    simpl; try congruence.
  apply Byte.byte_dec_bl in E0, E1. subst. congruence.
Qed.

Lemma dir_name_bytes (p : PublicKey) :
  list_byte_of_string (dir_name p) = hex_prefix ++ hex_encode (pk_bytes p).
Proof. exact (eth1_file_contents_eq (pk_bytes p)). Qed.

(** ** What a chain of builder calls can reach *)

(** Keys are set in pairs, and a directory only once a voting keypair is set. *)
Lemma apply_op_keys_inv (op : BuilderOp) (b b' : ValidatorDirectoryBuilder) (w w' : World) :
  (Builder.voting_keypair b = None <-> Builder.withdrawal_keypair b = None) ->
  (Builder.directory b <> None -> Builder.voting_keypair b <> None) ->
  apply_op op b w = (Ok b', w') ->
  (Builder.voting_keypair b' = None <-> Builder.withdrawal_keypair b' = None) /\
  (Builder.directory b' <> None -> Builder.voting_keypair b' <> None).
Proof.
  intros Hk Hd E. destruct op; simpl in E.
  - injection E as <- _. auto.
  - unfold io_lift, full_deposit_amount in E.
    destruct (Builder.spec b); [|discriminate E]. injection E as <- _. auto.
  - injection E as <- _. auto.
  - injection E as <- _. simpl. split; [split; discriminate|congruence].
  - injection E as <- _. auto.
  - injection E as <- _. simpl. split; [split; discriminate|congruence].
  - apply create_directory_ok in E as (vk & Hvk & -> & _). simpl.
    rewrite Hvk in Hk |- *. split; [|congruence].
    destruct (Builder.withdrawal_keypair b); [split; discriminate|].
    destruct Hk as [_ Hk]. specialize (Hk eq_refl). discriminate Hk.
  - apply write_keypair_files_ok in E as [-> _]. auto.
  - apply write_eth1_data_file_ok in E
      as (? & ? & ? & ? & ? & ? & ? & ? & ? & ? & ? & ? & -> & _). auto.
  - apply create_sqlite_slashing_dbs_ok in E as (d & ? & -> & _). auto.
Qed.

Lemma run_ops_keys_inv (ops : list BuilderOp) (b b' : ValidatorDirectoryBuilder) (w w' : World) :
  (Builder.voting_keypair b = None <-> Builder.withdrawal_keypair b = None) ->
  (Builder.directory b <> None -> Builder.voting_keypair b <> None) ->
  run_ops ops b w = (Ok b', w') ->
  (Builder.voting_keypair b' = None <-> Builder.withdrawal_keypair b' = None) /\
  (Builder.directory b' <> None -> Builder.voting_keypair b' <> None).
Proof.
  revert b w. induction ops as [|op ops IH]; intros b w Hk Hd; simpl.
  - unfold io_ret. intros E. injection E as <- _. auto.
  - unfold io_bind.
    destruct (apply_op op b w) as [[b1|e] w1] eqn:E1; [|congruence].
    destruct (apply_op_keys_inv op b b1 w w1 Hk Hd E1) as [Hk1 Hd1].
    exact (IH b1 w1 Hk1 Hd1).
Qed.

(** Every record [build] returns after a chain of builder calls from the
    default builder has both keypairs set. *)
Lemma built_keys_set (ops : list BuilderOp) (b : ValidatorDirectoryBuilder) (w w' : World)
    (r : ValidatorDirectory) :
  run_ops ops default_builder w = (Ok b, w') -> build b = Ok r ->
  voting_keypair r <> None /\ withdrawal_keypair r <> None.
Proof.
  intros E Hb. apply run_ops_keys_inv in E as [Hk Hd];
    [|simpl; tauto|simpl; congruence].
  unfold build in Hb. destruct (Builder.directory b) as [d|]; [|discriminate Hb].
  injection Hb as <-. simpl.
  assert (Hv : Builder.voting_keypair b <> None) by (apply Hd; discriminate).
  split; [exact Hv|]. intros Hw. apply Hv, Hk, Hw.
Qed.

(** ** Claims *)

(** C1 (round trip). For both key-generation policies (random keypairs
    or the deterministic keypair of an index) and any deposit amount,
    when the builder chain [spec, slots_per_epoch, deposit amount,
    keypairs, create_directory, write_keypair_files, write_eth1_data_file,
    create_sqlite_slashing_dbs, build] succeeds on a file system that is a
    tree, [load_for_signing] on the built directory with the same
    [slots_per_epoch] returns a record equal to the built one (same voting
    key, withdrawal key, deposit data, safety-store paths and
    [slots_per_epoch]). *)
Theorem builder_load_roundtrip (spec : ChainSpec) (spe : N) (amount : DepositAmount)
    (keys : KeyPolicy) (base_path : PathBuf) (w w' : World) (built : ValidatorDirectory) :
  fs_wf (fs w) ->
  keypair_wf (fst (policy_keypairs keys)) ->
  keypair_wf (snd (policy_keypairs keys)) ->
  builder_pipeline spec spe amount keys base_path w = (Ok built, w') ->
  load_for_signing (directory built) spe w' = (Ok built, w').
Proof.
  intros Hwf Hvk Hwk Hrun.
  apply builder_pipeline_ok in Hrun
    as (vk & wk & dd & w1 & Ekeys & Hbuilt & Hd & Hin & Hout & Hpar & Hfs).
  rewrite Ekeys in Hvk, Hwk. simpl in Hvk, Hwk.
  set (d := join base_path (file_name (dir_name (pk vk)))) in *.
  assert (Hcd : path_comps d = path_comps base_path ++ [dir_name (pk vk)]) by reflexivity.
  assert (Had : path_abs d = path_abs base_path) by reflexivity.
  destruct (path_abs base_path) eqn:Habs.
  - (* an absolute base: the block database is where the record says *)
    rewrite (join_abs d) in Hfs by (simpl; exact Had).
    subst built. simpl directory.
    assert (Hd1 : fs w1 !! d = Some Dir).
    { apply Hin, prefixes_self. rewrite Hcd. destruct (path_comps base_path); discriminate. }
    assert (Lv : fs w' !! join d (file_name (keypair_file VOTING_KEY_PREFIX)) =
                 Some (RegFile owner_rw (keypair_as_ssz_bytes vk))) by (rewrite Hfs; lookup_child).
    assert (Lw : fs w' !! join d (file_name (keypair_file WITHDRAWAL_KEY_PREFIX)) =
                 Some (RegFile owner_rw (keypair_as_ssz_bytes wk))) by (rewrite Hfs; lookup_child).
    assert (Le : fs w' !! join d (file_name ETH1_DEPOSIT_DATA_FILE) =
                 Some (RegFile default_file_mode (eth1_file_contents dd)))
      by (rewrite Hfs; lookup_child).
    assert (La : fs w' !! join d (file_name ATTESTER_SLASHING_DB) = Some (SqliteStore PUnset))
      by (rewrite Hfs; lookup_child).
    assert (Lb : fs w' !! join d (file_name BLOCK_PRODUCER_SLASHING_DB) =
                 Some (SqliteStore (PSet spe))) by (rewrite Hfs; lookup_child).
    assert (Ld : fs w' !! d = Some Dir) by (rewrite Hfs; lookup_child; exact Hd1).
    rewrite (load_for_signing_ok_of d spe w' Dir (SqliteStore PUnset) (PSet spe) spe vk);
      try assumption; try reflexivity.
    + rewrite (load_keypair_of_file d WITHDRAWAL_KEY_PREFIX w' owner_rw wk Lw Hwk).
      rewrite (load_eth1_of_file d w' default_file_mode dd Le). reflexivity.
    + rewrite (load_keypair_of_file d VOTING_KEY_PREFIX w' owner_rw vk Lv Hvk). reflexivity.
  - (* a relative base: [path.join(&block_path)] nests the directory in
       itself, whose parent cannot be a directory of a tree *)
    exfalso. clearbody d. destruct d as [ad cd]. simpl in Had, Hcd. subst ad.
    assert (Hcd0 : cd <> []) by (rewrite Hcd; destruct (path_comps base_path); discriminate).
    apply parent_dir_lookup in Hpar.
    2:{ cbn. rewrite app_assoc, removelast_last. destruct cd; [congruence|discriminate]. }
    assert (Hpar' : parent (join (mkPath false cd)
                      (join (mkPath false cd) (file_name BLOCK_PRODUCER_SLASHING_DB)))
                    = mkPath false (cd ++ cd)).
    { unfold parent. cbn. rewrite app_assoc, removelast_last. reflexivity. }
    rewrite Hpar' in Hpar.
    repeat (apply lookup_insert_dir in Hpar; [|discriminate]).
    rewrite Hout in Hpar.
    2:{ intros HP. apply prefixes_length in HP. simpl in HP.
        rewrite length_app in HP. destruct cd; [congruence|simpl in HP; lia]. }
    specialize (Hwf _ Dir Hpar (length cd)). simpl in Hwf.
    rewrite firstn_app, Nat.sub_diag, firstn_all in Hwf. simpl in Hwf.
    rewrite app_nil_r, Hd in Hwf. 
    assert (Hlt : 0 < length cd < length (cd ++ cd))
      by (rewrite length_app; destruct cd; [congruence|simpl; lia]).
    specialize (Hwf Hlt). discriminate Hwf.
Qed.

(** C2. When the attester or the block-proposal safety store is missing
    from the directory, [load_for_signing] returns an error and no record;
    the file system is left untouched, and when the directory itself exists
    the error is "Unable to find slashing protection in <directory>". *)
Theorem load_missing_store_fails (d : PathBuf) (spe : N) (w : World) :
  fs w !! join d (file_name ATTESTER_SLASHING_DB) = None \/
  fs w !! join d (file_name BLOCK_PRODUCER_SLASHING_DB) = None ->
  exists e, load_for_signing d spe w = (Err e, w) /\
    (fs w !! d <> None -> e = ("Unable to find slashing protection in " ++ path_to_string d)%string).
Proof.
  intros Hmiss. unfold load_for_signing. io_unfold.
  cbn -[load_keypair load_eth1_deposit_data join path_to_string].
  destruct (fs w !! d) as [e0|] eqn:Ed;
    cbn -[load_keypair load_eth1_deposit_data join path_to_string].
  2:{ eexists. split; [reflexivity|]. congruence. }
  destruct Hmiss as [Ha|Hb].
  - rewrite Ha. cbn -[load_keypair load_eth1_deposit_data join path_to_string].
    destruct (fs w !! join d (file_name BLOCK_PRODUCER_SLASHING_DB));
      eexists; split; reflexivity.
  - rewrite Hb. cbn -[load_keypair load_eth1_deposit_data join path_to_string].
    destruct (fs w !! join d (file_name ATTESTER_SLASHING_DB));
      eexists; split; reflexivity.
Qed.

(** C3. With the builder's directory [d]: when the voting or the
    withdrawal key file already exists, [write_keypair_files] fails and
    every entry that existed before is still there with the same mode and
    contents; when the deposit-data file already exists,
    [write_eth1_data_file] fails and leaves the file system as it was. *)
Theorem existing_files_not_overwritten (b : ValidatorDirectoryBuilder) (d : PathBuf) (w : World) :
  Builder.directory b = Some d ->
  ((fs w !! join d (file_name (keypair_file VOTING_KEY_PREFIX)) <> None \/
    fs w !! join d (file_name (keypair_file WITHDRAWAL_KEY_PREFIX)) <> None) ->
   exists e w', write_keypair_files b w = (Err e, w') /\
     forall q x, fs w !! q = Some x -> fs w' !! q = Some x) /\
  (fs w !! join d (file_name ETH1_DEPOSIT_DATA_FILE) <> None ->
   exists e, write_eth1_data_file b w = (Err e, w)).
Proof.
  intros Hd. split.
  - intros Hex. unfold write_keypair_files.
    destruct (Builder.voting_keypair b) as [vk|];
      [|io_unfold; eexists _, w; split; [reflexivity|auto]].
    destruct (Builder.withdrawal_keypair b) as [wk|];
      [|io_unfold; eexists _, w; split; [reflexivity|auto]].
    unfold io_bind.
    destruct (save_keypair b vk VOTING_KEY_PREFIX w) as [[u|e] w1] eqn:E1.
    + pose proof E1 as E1'.
      apply save_keypair_ok in E1' as (d' & Hd' & Hv & Hfs & _).
      rewrite Hd in Hd'. injection Hd' as <-.
      destruct Hex as [Hex|Hex]; [cbv zeta in Hv; congruence|].
      destruct (save_keypair_existing b wk WITHDRAWAL_KEY_PREFIX w1 d Hd) as [e Ee].
      { rewrite Hfs, lookup_insert_ne; [exact Hex|].
        apply child_ne. names_ne. }
      rewrite Ee. exists e, w1. split; [reflexivity|].
      exact (save_keypair_keeps _ _ _ _ _ _ E1).
    + exists e, w1. split; [reflexivity|].
      exact (save_keypair_keeps _ _ _ _ _ _ E1).
  - intros Hex. unfold write_eth1_data_file. rewrite Hd.
    destruct (Builder.voting_keypair b) as [vk|]; [|eexists; reflexivity].
    destruct (Builder.withdrawal_keypair b) as [wk|]; [|eexists; reflexivity].
    destruct (Builder.amount b) as [amount|]; [|eexists; reflexivity].
    destruct (Builder.spec b) as [spec|]; [|eexists; reflexivity].
    destruct (encode_eth1_tx_data (make_deposit_data vk wk amount spec));
      [|eexists; reflexivity].
    io_unfold. destruct (fs w !! join d (file_name ETH1_DEPOSIT_DATA_FILE)); [|congruence].
    eexists. reflexivity.
Qed.

(** C4. When [write_keypair_files] succeeds, both key files hold their
    keypair with mode [S_IRUSR | S_IWUSR] (0o600: no group, other or
    execute bit), and the file operations recorded for each file are, in
    order, its creation, the change of its mode to 0o600 and only then the
    write of the key bytes, all within the one call. *)
Theorem keypair_files_owner_only (b b' : ValidatorDirectoryBuilder) (w w' : World) :
  write_keypair_files b w = (Ok b', w') ->
  exists d vk wk,
    Builder.directory b = Some d /\ Builder.voting_keypair b = Some vk /\
    Builder.withdrawal_keypair b = Some wk /\
    let pv := join d (file_name (keypair_file VOTING_KEY_PREFIX)) in
    let pw := join d (file_name (keypair_file WITHDRAWAL_KEY_PREFIX)) in
    fs w' !! pv = Some (RegFile owner_rw (keypair_as_ssz_bytes vk)) /\
    fs w' !! pw = Some (RegFile owner_rw (keypair_as_ssz_bytes wk)) /\
    owner_rw = Z.lor S_IRUSR S_IWUSR /\
    Z.land owner_rw 63 = 0%Z /\ Z.land owner_rw 73 = 0%Z /\
    trace w' = trace w ++ [ECreate pv; ESetMode pv owner_rw; EWrite pv (keypair_as_ssz_bytes vk);
                           ECreate pw; ESetMode pw owner_rw; EWrite pw (keypair_as_ssz_bytes wk)].
Proof.
  intros E. apply write_keypair_files_ok in E
    as (_ & d & vk & wk & Hd & Hvk & Hwk & _ & _ & Hfs & Htr).
  exists d, vk, wk. do 3 (split; [assumption|]). cbv zeta. rewrite Hfs.
  split; [|split; [apply lookup_insert_eq|]].
  - rewrite lookup_insert_ne by (apply child_ne; names_ne). apply lookup_insert_eq.
  - split; [reflexivity|]. split; [reflexivity|]. split; [reflexivity|]. exact Htr.
Qed.

(** C5. When [load_for_signing] succeeds, the block-proposal store of the
    directory is a database whose stored [slots_per_epoch] can be read,
    and the record's [slots_per_epoch] is that stored value, the caller's
    value being used only when the store has none; when the stored value
    cannot be read, [load_for_signing] fails. *)
Theorem load_slots_per_epoch_from_store (d : PathBuf) (spe : N) (w : World) :
  (forall r w', load_for_signing d spe w = (Ok r, w') ->
   exists sp v,
     fs w !! join d (file_name BLOCK_PRODUCER_SLASHING_DB) = Some (SqliteStore sp) /\
     param_read sp (Some spe) = Ok v /\
     slots_per_epoch r = Some v /\
     sp <> PUndecodable /\
     v = match sp with PSet stored => stored | _ => spe end) /\
  (forall sp e,
     fs w !! join d (file_name BLOCK_PRODUCER_SLASHING_DB) = Some (SqliteStore sp) ->
     param_read sp (Some spe) = Err e ->
     exists e', load_for_signing d spe w = (Err e', w)).
Proof.
  split.
  - intros r w' E. apply load_for_signing_inv in E
      as (_ & _ & _ & sp & v & vk & Hb & Hp & _ & ->).
    exists sp, v. do 3 (split; [assumption || reflexivity|]).
    destruct sp; simpl in Hp; try discriminate Hp; injection Hp as <-; split; congruence.
  - intros sp e Hb Hp. apply load_for_signing_err. intros r w' E.
    apply load_for_signing_inv in E as (_ & _ & _ & sp' & v & _ & Hb' & Hp' & _).
    rewrite Hb in Hb'. injection Hb' as <-. congruence.
Qed.

(** C6. A successful [create_directory] sets the directory to
    [base_path] joined with [dir_name] of the voting public key, whose bytes
    are "0x" followed by the hex encoding of the key's bytes; two public
    keys with the same [dir_name] are equal; and when a directory of that
    name already exists, [create_directory] fails and leaves the file
    system as it was. *)
Theorem create_directory_named_by_voting_key (b : ValidatorDirectoryBuilder)
    (base_path : PathBuf) (w : World) :
  (forall b' w', create_directory b base_path w = (Ok b', w') ->
   exists vk, Builder.voting_keypair b = Some vk /\
     Builder.directory b' = Some (join base_path (file_name (dir_name (pk vk))))) /\
  (forall p, list_byte_of_string (dir_name p) = hex_prefix ++ hex_encode (pk_bytes p)) /\
  (forall p1 p2, dir_name p1 = dir_name p2 -> p1 = p2) /\
  (forall vk, Builder.voting_keypair b = Some vk ->
   fs w !! join base_path (file_name (dir_name (pk vk))) <> None ->
   exists e, create_directory b base_path w = (Err e, w)).
Proof.
  split; [|split; [exact dir_name_bytes|split]].
  - intros b' w' E. apply create_directory_ok in E as (vk & Hvk & -> & _).
    exists vk. split; [exact Hvk|reflexivity].
  - intros p1 p2 E. apply (f_equal list_byte_of_string) in E.
    rewrite !dir_name_bytes in E. apply app_inv_head, hex_encode_inj in E.
    destruct p1, p2. simpl in E. congruence.
  - intros vk Hvk Hex. unfold create_directory. rewrite Hvk. io_unfold.
    destruct (fs w !! join base_path (file_name (dir_name (pk vk)))); [|congruence].
    eexists. reflexivity.
Qed.

(** C7. When [write_eth1_data_file] succeeds, the deposit-data file holds
    "0x" followed by the hex encoding of the recorded deposit bytes, every
    hex character being one of 0-9 a-f, and [load_eth1_deposit_data] on the
    directory returns exactly those bytes; a deposit-data file whose bytes
    do not start with "0x" makes [load_eth1_deposit_data] fail. *)
Theorem eth1_deposit_file_format :
  (forall b b' w w', write_eth1_data_file b w = (Ok b', w') ->
   exists d dd, Builder.directory b = Some d /\ Builder.deposit_data b' = Some dd /\
     (exists m, fs w' !! join d (file_name ETH1_DEPOSIT_DATA_FILE) =
                Some (RegFile m (hex_prefix ++ hex_encode dd))) /\
     Forall (fun c => is_lower_hex c = true) (hex_encode dd) /\
     load_eth1_deposit_data d w' = (Ok dd, w')) /\
  (forall d w m c, fs w !! join d (file_name ETH1_DEPOSIT_DATA_FILE) = Some (RegFile m c) ->
   (forall rest, c <> hex_prefix ++ rest) ->
   exists e, load_eth1_deposit_data d w = (Err e, w)).
Proof.
  split.
  - intros b b' w w' E. apply write_eth1_data_file_ok in E
      as (vk & wk & amount & spec & d & dd & _ & _ & _ & _ & Hd & _ & -> & _ & Hfs & _).
    exists d, dd. split; [exact Hd|]. split; [reflexivity|].
    assert (Hl : fs w' !! join d (file_name ETH1_DEPOSIT_DATA_FILE) =
                 Some (RegFile default_file_mode (eth1_file_contents dd)))
      by (rewrite Hfs; apply lookup_insert_eq).
    split; [|split; [apply hex_encode_lower|exact (load_eth1_of_file d w' _ dd Hl)]].
    exists default_file_mode. rewrite Hl, eth1_file_contents_eq. reflexivity.
  - intros d w m c Hc Hpre. unfold load_eth1_deposit_data. io_unfold.
    cbn -[hex_decode join path_to_string].
    repeat (rewrite Hc; cbn -[hex_decode join path_to_string]).
    destruct (strip_0x c) as [rest|] eqn:Es.
    + exfalso. exact (Hpre rest (strip_0x_some c rest Es)).
    + eexists. reflexivity.
Qed.

(** C8. A voting keypair that cannot be loaded (missing file, unreadable
    or undecodable bytes) makes [load_for_signing] fail; with the directory
    and its two stores in place and a loadable voting keypair, the load
    succeeds whatever happens to the withdrawal keypair and the deposit
    data, recording each as unset when it cannot be loaded. A missing key
    file or deposit-data file, and key bytes that do not decode, are such
    load failures. *)
Theorem load_voting_required (d : PathBuf) (spe : N) (w : World) :
  ((exists e, fst (load_keypair d VOTING_KEY_PREFIX w) = Err e) ->
   exists e, load_for_signing d spe w = (Err e, w)) /\
  (forall e0 e1 sp v vk,
     fs w !! d = Some e0 ->
     fs w !! join d (file_name ATTESTER_SLASHING_DB) = Some e1 ->
     fs w !! join d (file_name BLOCK_PRODUCER_SLASHING_DB) = Some (SqliteStore sp) ->
     param_read sp (Some spe) = Ok v ->
     fst (load_keypair d VOTING_KEY_PREFIX w) = Ok vk ->
     exists r, load_for_signing d spe w = (Ok r, w) /\ voting_keypair r = Some vk /\
       ((exists e, fst (load_keypair d WITHDRAWAL_KEY_PREFIX w) = Err e) ->
        withdrawal_keypair r = None) /\
       ((exists e, fst (load_eth1_deposit_data d w) = Err e) -> deposit_data r = None)) /\
  (forall prefix, fs w !! join d (file_name (keypair_file prefix)) = None ->
   exists e, fst (load_keypair d prefix w) = Err e) /\
  (forall prefix m c e, fs w !! join d (file_name (keypair_file prefix)) = Some (RegFile m c) ->
   keypair_from_ssz_bytes c = Err e ->
   exists e', fst (load_keypair d prefix w) = Err e') /\
  (fs w !! join d (file_name ETH1_DEPOSIT_DATA_FILE) = None ->
   exists e, fst (load_eth1_deposit_data d w) = Err e).
Proof.
  split; [|split; [|split; [|split]]].
  - intros [e He]. apply load_for_signing_err. intros r w' E.
    apply load_for_signing_inv in E as (_ & _ & _ & _ & _ & vk & _ & _ & Hv & _).
    congruence.
  - intros e0 e1 sp v vk Hd Ha Hb Hp Hv.
    rewrite (load_for_signing_ok_of d spe w e0 e1 sp v vk Hd Ha Hb Hp Hv).
    eexists. split; [reflexivity|]. split; [reflexivity|]. simpl.
    split; intros [e He]; rewrite He; reflexivity.
  - intros prefix Hn. unfold load_keypair. io_unfold.
    cbn -[keypair_from_ssz_bytes join path_to_string]. rewrite Hn.
    eexists. reflexivity.
  - intros prefix m c e Hf Hdec. unfold load_keypair. io_unfold.
    cbn -[keypair_from_ssz_bytes join path_to_string].
    repeat (rewrite Hf; cbn -[keypair_from_ssz_bytes join path_to_string]).
    rewrite Hdec. eexists. reflexivity.
  - intros Hn. unfold load_eth1_deposit_data. io_unfold.
    cbn -[hex_decode join path_to_string]. rewrite Hn.
    eexists. reflexivity.
Qed.

(** C9. Two successful runs of the builder chain with the key policy
    [insecure_keypairs index] for the same index, in any two target
    directories, record the same voting keypair and the same withdrawal
    keypair, both equal to [generate_deterministic_keypair index]. *)
Theorem insecure_keypairs_deterministic (index : nat)
    (spec1 spec2 : ChainSpec) (spe1 spe2 : N) (amount1 amount2 : DepositAmount)
    (base1 base2 : PathBuf) (w1 w1' w2 w2' : World) (r1 r2 : ValidatorDirectory) :
  builder_pipeline spec1 spe1 amount1 (InsecureKeys index) base1 w1 = (Ok r1, w1') ->
  builder_pipeline spec2 spe2 amount2 (InsecureKeys index) base2 w2 = (Ok r2, w2') ->
  voting_keypair r1 = voting_keypair r2 /\ withdrawal_keypair r1 = withdrawal_keypair r2 /\
  voting_keypair r1 = Some (generate_deterministic_keypair index) /\
  withdrawal_keypair r1 = Some (generate_deterministic_keypair index).
Proof.
  intros E1 E2.
  apply builder_pipeline_ok in E1 as (vk1 & wk1 & dd1 & u1 & K1 & R1 & _).
  apply builder_pipeline_ok in E2 as (vk2 & wk2 & dd2 & u2 & K2 & R2 & _).
  simpl in K1, K2. injection K1 as <- <-. injection K2 as <- <-.
  subst r1 r2. simpl. repeat split.
Qed.

(** C10 (as the code has it). A record [load_for_signing] returns has its
    voting keypair, both safety-store paths and [slots_per_epoch] set.
    [build] itself only requires the directory, but every record it
    finalizes after a chain of builder calls from the default builder has
    both keypairs set, since the directory is only set by
    [create_directory], which requires the voting keypair, and keypairs are
    only ever set in pairs; the deposit data, the two safety-store paths and
    [slots_per_epoch] can be unset in such a record. *)
Theorem loaded_and_built_fields :
  (forall d spe w r w', load_for_signing d spe w = (Ok r, w') ->
   voting_keypair r <> None /\ attestation_slashing_protection r <> None /\
   block_slashing_protection r <> None /\ slots_per_epoch r <> None) /\
  (forall ops w w' b r, run_ops ops default_builder w = (Ok b, w') -> build b = Ok r ->
   voting_keypair r <> None /\ withdrawal_keypair r <> None) /\
  (exists ops w w' b r, run_ops ops default_builder w = (Ok b, w') /\ build b = Ok r /\
   deposit_data r = None /\ attestation_slashing_protection r = None /\
   block_slashing_protection r = None /\ slots_per_epoch r = None).
Proof.
  split; [|split].
  - intros d spe w r w' E. apply load_for_signing_inv in E
      as (_ & _ & _ & sp & v & vk & _ & _ & _ & ->).
    simpl. repeat split; discriminate.
  - intros ops w w' b r. exact (built_keys_set ops b w w' r).
  - set (kp := mkKeypair (mkSecretKey []) (mkPublicKey [])).
    exists [OpThreadRandomKeypairs kp kp; OpCreateDirectory (mkPath true ["validators"])],
      (mkWorld ∅ []).
    eexists _, _, _. split; [reflexivity|]. split; [reflexivity|].
    repeat split.
Qed.

(** ** Further properties of the code *)

Lemma keypair_from_ssz_bytes_ok (b : list byte) (kp : Keypair) :
  keypair_from_ssz_bytes b = Ok kp -> b = keypair_as_ssz_bytes kp /\ keypair_wf kp.
Proof.
  unfold keypair_from_ssz_bytes, result_bind, public_key_from_ssz_bytes,
    secret_key_from_ssz_bytes.
  destruct (Nat.eqb (length b) 80); [|discriminate].
  destruct (Nat.eqb (length (firstn 48 b)) 48 && pk_point_valid (firstn 48 b)) eqn:Epk;
    [|discriminate].
  destruct (Nat.eqb (length (skipn 48 b)) 32 && sk_scalar_valid (skipn 48 b)) eqn:Esk;
    [|discriminate].
  intros E. injection E as <-.
  apply andb_prop in Epk as [Epk1 Epk2]. apply andb_prop in Esk as [Esk1 Esk2].
  apply Nat.eqb_eq in Epk1, Esk1.
  unfold keypair_as_ssz_bytes, keypair_wf. simpl.
  split; [symmetry; apply firstn_skipn|]. auto.
Qed.

Lemma mkdirs_keeps (qs : list PathBuf) (w w' : World) (r : result unit) :
  mkdirs qs w = (r, w') -> forall q x, fs w !! q = Some x -> fs w' !! q = Some x.
Proof.
  revert w. induction qs as [|q0 qs IH]; intros w; simpl.
  - unfold io_ret. intros E. injection E as _ <-. auto.
  - destruct (fs w !! q0) as [[| |]|] eqn:Eq0.
    + exact (IH w).
    + intros E. injection E as _ <-. auto.
    + intros E. injection E as _ <-. auto.
    + unfold io_bind, modify_fs. simpl. intros E q x Hq. apply (IH _ E). simpl.
      rewrite lookup_insert_ne; [exact Hq|congruence].
Qed.

Lemma create_directory_existing (b : ValidatorDirectoryBuilder) (base_path : PathBuf)
    (w : World) (vk : Keypair) :
  Builder.voting_keypair b = Some vk ->
  fs w !! join base_path (file_name (dir_name (pk vk))) <> None ->
  exists e, create_directory b base_path w = (Err e, w).
Proof.
  intros Hvk Hex. unfold create_directory. rewrite Hvk. io_unfold.
  destruct (fs w !! join base_path (file_name (dir_name (pk vk)))); [|congruence].
  eexists. reflexivity.
Qed.

Lemma create_directory_keeps (b : ValidatorDirectoryBuilder) (base_path : PathBuf)
    (w w' : World) (r : result ValidatorDirectoryBuilder) :
  create_directory b base_path w = (r, w') ->
  forall q x, fs w !! q = Some x -> fs w' !! q = Some x.
Proof.
  unfold create_directory.
  destruct (Builder.voting_keypair b) as [vk|];
    [|io_unfold; intros E; injection E as _ <-; auto].
  unfold io_bind, path_exists, io_map_err, io_err, io_ret.
  destruct (fs w !! join base_path (file_name (dir_name (pk vk))));
    [intros E; injection E as _ <-; auto|].
  unfold create_dir_all.
  destruct (mkdirs (prefixes (join base_path (file_name (dir_name (pk vk))))) w)
    as [[u|e] w1] eqn:Em; simpl; intros E; injection E as _ <-;
    exact (mkdirs_keeps _ _ _ _ Em).
Qed.

Lemma write_keypair_files_keeps (b : ValidatorDirectoryBuilder) (w w' : World)
    (r : result ValidatorDirectoryBuilder) :
  write_keypair_files b w = (r, w') ->
  forall q x, fs w !! q = Some x -> fs w' !! q = Some x.
Proof.
  unfold write_keypair_files.
  destruct (Builder.voting_keypair b) as [vk|];
    [|io_unfold; intros E; injection E as _ <-; auto].
  destruct (Builder.withdrawal_keypair b) as [wk|];
    [|io_unfold; intros E; injection E as _ <-; auto].
  unfold io_bind.
  destruct (save_keypair b vk VOTING_KEY_PREFIX w) as [[u|e] w1] eqn:E1.
  - destruct (save_keypair b wk WITHDRAWAL_KEY_PREFIX w1) as [[u2|e2] w2] eqn:E2;
      unfold io_ret; intros E; injection E as _ <-; intros q x Hq;
      exact (save_keypair_keeps _ _ _ _ _ _ E2 q x (save_keypair_keeps _ _ _ _ _ _ E1 q x Hq)).
  - intros E. injection E as _ <-. exact (save_keypair_keeps _ _ _ _ _ _ E1).
Qed.

Lemma write_eth1_data_file_err_pure (b : ValidatorDirectoryBuilder) (w w' : World) (e : string) :
  write_eth1_data_file b w = (Err e, w') -> w' = w.
Proof.
  unfold write_eth1_data_file.
  destruct (Builder.voting_keypair b) as [vk|]; [|io_unfold; congruence].
  destruct (Builder.withdrawal_keypair b) as [wk|]; [|io_unfold; congruence].
  destruct (Builder.amount b) as [amount|]; [|io_unfold; congruence].
  destruct (Builder.spec b) as [spec|]; [|io_unfold; congruence].
  destruct (Builder.directory b) as [d|]; [|io_unfold; congruence].
  destruct (encode_eth1_tx_data (make_deposit_data vk wk amount spec)) as [dd|e'];
    [|io_unfold; congruence].
  io_unfold. set (pe := join d (file_name ETH1_DEPOSIT_DATA_FILE)).
  destruct (fs w !! pe) eqn:Epe; [congruence|].
  destruct (parent_is_dir (fs w) pe); [|simpl; congruence].
  rewrite Epe. simpl. rewrite lookup_insert_eq. simpl. congruence.
Qed.

Lemma write_eth1_data_file_keeps (b : ValidatorDirectoryBuilder) (w w' : World)
    (r : result ValidatorDirectoryBuilder) :
  write_eth1_data_file b w = (r, w') ->
  forall q x, fs w !! q = Some x -> fs w' !! q = Some x.
Proof.
  intros E q x Hq. destruct r as [b'|e].
  - apply write_eth1_data_file_ok in E
      as (? & ? & ? & ? & d & dd & ? & ? & ? & ? & ? & ? & ? & Hpe & Hfs & _).
    rewrite Hfs, lookup_insert_ne; [exact Hq|congruence].
  - apply write_eth1_data_file_err_pure in E. subst. exact Hq.
Qed.

Lemma create_sqlite_slashing_dbs_keeps (b : ValidatorDirectoryBuilder) (w w' : World)
    (r : result ValidatorDirectoryBuilder) :
  create_sqlite_slashing_dbs b w = (r, w') ->
  forall q x, fs w !! q = Some x -> fs w' !! q = Some x.
Proof.
  unfold create_sqlite_slashing_dbs.
  destruct (Builder.directory b) as [d|]; [|io_unfold; intros E; injection E as _ <-; auto].
  io_unfold.
  set (att := join d (file_name ATTESTER_SLASHING_DB)).
  set (blk := join d (join d (file_name BLOCK_PRODUCER_SLASHING_DB))).
  destruct (fs w !! att) eqn:Ea; [simpl; intros E; injection E as _ <-; auto|].
  destruct (parent_is_dir (fs w) att); [|simpl; intros E; injection E as _ <-; auto].
  simpl.
  assert (K1 : forall q x, fs w !! q = Some x ->
                 <[att := SqliteStore PUnset]> (fs w) !! q = Some x).
  { intros q x Hq. rewrite lookup_insert_ne; [exact Hq|congruence]. }
  destruct (<[att:=SqliteStore PUnset]> (fs w) !! blk) eqn:Eb;
    [simpl; intros E; injection E as _ <-; exact K1|].
  destruct (parent_is_dir (<[att:=SqliteStore PUnset]> (fs w)) blk);
    [|simpl; intros E; injection E as _ <-; exact K1].
  simpl. intros E. injection E as _ <-. intros q x Hq. simpl.
  pose proof (K1 q x Hq) as Hq1.
  rewrite lookup_insert_ne; [exact Hq1|congruence].
Qed.

Lemma apply_op_keeps (op : BuilderOp) (b : ValidatorDirectoryBuilder) (w w' : World)
    (r : result ValidatorDirectoryBuilder) :
  apply_op op b w = (r, w') -> forall q x, fs w !! q = Some x -> fs w' !! q = Some x.
Proof.
  destruct op; simpl;
    try (unfold io_ret, io_lift; intros E; injection E as _ <-; auto; fail).
  - apply create_directory_keeps.
  - apply write_keypair_files_keeps.
  - apply write_eth1_data_file_keeps.
  - apply create_sqlite_slashing_dbs_keeps.
Qed.

Lemma save_keypair_fresh (b : ValidatorDirectoryBuilder) (kp : Keypair) (prefix : string)
    (w : World) (d : PathBuf) :
  let p := join d (file_name (keypair_file prefix)) in
  Builder.directory b = Some d -> fs w !! p = None -> parent_is_dir (fs w) p = true ->
  save_keypair b kp prefix w =
  (Ok tt, mkWorld (<[p := RegFile owner_rw (keypair_as_ssz_bytes kp)]> (fs w))
                  (trace w ++ [ECreate p; ESetMode p owner_rw; EWrite p (keypair_as_ssz_bytes kp)])).
Proof.
  intros p Hd Hn Hpar. unfold save_keypair. rewrite Hd. io_unfold. fold p.
  rewrite Hn. simpl. rewrite Hpar, Hn. simpl. rewrite lookup_insert_eq. simpl.
  rewrite lookup_insert_eq. simpl. rewrite !insert_insert_eq, <- !app_assoc. reflexivity.
Qed.

(** X1. [load_keypair] returns [kp] exactly when the bytes read from the
    key file are the 80-byte encoding of [kp] (public key then secret key)
    and [kp] is a keypair the BLS library accepts. *)
Theorem load_keypair_ok_iff (d : PathBuf) (prefix : string) (w : World) (kp : Keypair) :
  fst (load_keypair d prefix w) = Ok kp <->
  keypair_wf kp /\
  fst (read_to_end (join d (file_name (keypair_file prefix))) w) = Ok (keypair_as_ssz_bytes kp).
Proof.
  unfold load_keypair. io_unfold.
  cbn -[keypair_from_ssz_bytes join path_to_string keypair_as_ssz_bytes].
  destruct (fs w !! join d (file_name (keypair_file prefix))) as [[|m c|sp]|] eqn:Ep;
    cbn -[keypair_from_ssz_bytes join path_to_string keypair_as_ssz_bytes];
    repeat (rewrite Ep; cbn -[keypair_from_ssz_bytes join path_to_string keypair_as_ssz_bytes]);
    try (split; [discriminate|intros [_ X]; discriminate X]).
  - split.
    + destruct (keypair_from_ssz_bytes c) as [k|e] eqn:Ed; simpl; [|discriminate].
      intros E. injection E as <-. apply keypair_from_ssz_bytes_ok in Ed as [-> Hwf]. auto.
    + intros [Hwf E]. injection E as ->. rewrite keypair_ssz_roundtrip by exact Hwf.
      reflexivity.
  - split.
    + destruct (keypair_from_ssz_bytes (sqlite_image sp)) as [k|e] eqn:Ed; simpl;
        [|discriminate].
      intros E. injection E as <-. apply keypair_from_ssz_bytes_ok in Ed as [-> Hwf]. auto.
    + intros [Hwf E]. injection E as E. rewrite E, keypair_ssz_roundtrip by exact Hwf.
      reflexivity.
Qed.

(** X2. After [save_keypair] succeeds for a keypair the BLS library
    accepts, [load_keypair] on the builder's directory with the same prefix
    returns that keypair. *)
Theorem save_keypair_load_roundtrip (b : ValidatorDirectoryBuilder) (kp : Keypair)
    (prefix : string) (d : PathBuf) (w w' : World) (u : unit) :
  Builder.directory b = Some d -> keypair_wf kp ->
  save_keypair b kp prefix w = (Ok u, w') ->
  load_keypair d prefix w' = (Ok kp, w').
Proof.
  intros Hd Hwf E. apply save_keypair_ok in E as (d' & Hd' & _ & Hfs & _).
  rewrite Hd in Hd'. injection Hd' as <-.
  apply (load_keypair_of_file d prefix w' owner_rw kp); [|exact Hwf].
  rewrite Hfs. apply lookup_insert_eq.
Qed.

(** X3. A successful [write_keypair_files] changes no entry of the file
    system other than the two key files of the builder's directory. *)
Theorem write_keypair_files_frame (b b' : ValidatorDirectoryBuilder) (w w' : World) :
  write_keypair_files b w = (Ok b', w') ->
  exists d, Builder.directory b = Some d /\
    forall q, q <> join d (file_name (keypair_file VOTING_KEY_PREFIX)) ->
              q <> join d (file_name (keypair_file WITHDRAWAL_KEY_PREFIX)) ->
              fs w' !! q = fs w !! q.
Proof.
  intros E. apply write_keypair_files_ok in E
    as (_ & d & vk & wk & Hd & _ & _ & _ & _ & Hfs & _).
  exists d. split; [exact Hd|]. intros q Hv Hw. rewrite Hfs.
  rewrite !lookup_insert_ne by congruence. reflexivity.
Qed.

(** X4. [write_keypair_files] does not roll back: when the voting key
    file can be created but the withdrawal key file already exists, the
    call fails, the new voting key file stays on disk with its keypair, and
    the existing withdrawal key file is unchanged. *)
Theorem write_keypair_files_no_rollback (b : ValidatorDirectoryBuilder) (d : PathBuf)
    (vk wk : Keypair) (w : World) :
  Builder.directory b = Some d -> Builder.voting_keypair b = Some vk ->
  Builder.withdrawal_keypair b = Some wk ->
  fs w !! join d (file_name (keypair_file VOTING_KEY_PREFIX)) = None ->
  parent_is_dir (fs w) (join d (file_name (keypair_file VOTING_KEY_PREFIX))) = true ->
  fs w !! join d (file_name (keypair_file WITHDRAWAL_KEY_PREFIX)) <> None ->
  exists e w', write_keypair_files b w = (Err e, w') /\
    fs w' !! join d (file_name (keypair_file VOTING_KEY_PREFIX)) =
      Some (RegFile owner_rw (keypair_as_ssz_bytes vk)) /\
    fs w' !! join d (file_name (keypair_file WITHDRAWAL_KEY_PREFIX)) =
      fs w !! join d (file_name (keypair_file WITHDRAWAL_KEY_PREFIX)).
Proof.
  intros Hd Hvk Hwk Hn Hpar Hex.
  assert (Hne : join d (file_name (keypair_file VOTING_KEY_PREFIX)) <>
                join d (file_name (keypair_file WITHDRAWAL_KEY_PREFIX)))
    by (apply child_ne; names_ne).
  unfold write_keypair_files. rewrite Hvk, Hwk. unfold io_bind.
  rewrite (save_keypair_fresh b vk VOTING_KEY_PREFIX w d Hd Hn Hpar).
  match goal with |- context [save_keypair b wk WITHDRAWAL_KEY_PREFIX ?w1] =>
    destruct (save_keypair_existing b wk WITHDRAWAL_KEY_PREFIX w1 d Hd) as [e Ee];
    [simpl; rewrite lookup_insert_ne by exact Hne; exact Hex|] end.
  rewrite Ee. eexists _, _. split; [reflexivity|]. simpl.
  split; [apply lookup_insert_eq|]. apply lookup_insert_ne. exact Hne.
Qed.

(** X5. No chain of builder calls, successful or not, removes or changes
    an entry that was in the file system before: the builder only adds
    directories, files and databases. *)
Theorem builder_ops_only_add (ops : list BuilderOp) (b : ValidatorDirectoryBuilder)
    (w w' : World) (r : result ValidatorDirectoryBuilder) :
  run_ops ops b w = (r, w') -> forall q x, fs w !! q = Some x -> fs w' !! q = Some x.
Proof.
  revert b w. induction ops as [|op ops IH]; intros b w; simpl.
  - unfold io_ret. intros E. injection E as _ <-. auto.
  - unfold io_bind.
    destruct (apply_op op b w) as [[b1|e] w1] eqn:E1.
    + intros E q x Hq. exact (IH b1 w1 E q x (apply_op_keeps _ _ _ _ _ E1 q x Hq)).
    + intros E. injection E as _ <-. exact (apply_op_keeps _ _ _ _ _ E1).
Qed.

Lemma in_prefixes_parent (p : PathBuf) (x : string) :
  path_comps p <> [] -> In p (prefixes (join p (file_name x))).
Proof.
  intros Hne. unfold prefixes, join. simpl. apply in_map_iff.
  exists (length (path_comps p)). split.
  - rewrite firstn_app, firstn_all, Nat.sub_diag. simpl. rewrite app_nil_r.
    destruct p; reflexivity.
  - apply in_seq. rewrite length_app. simpl.
    destruct (path_comps p); [congruence|]. simpl. lia.
Qed.





Lemma parent_is_dir_child (m : gmap PathBuf Entry) (d : PathBuf) (x : string) :
  path_comps d <> [] ->
  parent_is_dir m (join d (file_name x)) = match m !! d with Some Dir => true | _ => false end.
Proof.
  intros Hne. destruct d as [ad cd]. unfold parent_is_dir, parent, join. simpl.
  rewrite removelast_last. destruct cd; [simpl in Hne; congruence|]. reflexivity.
Qed.

Lemma parent_not_dir (m : gmap PathBuf Entry) (d : PathBuf) (x : string) :
  path_comps d <> [] -> m !! d <> Some Dir -> parent_is_dir m (join d (file_name x)) = false.
Proof.
  intros Hne Hd. rewrite parent_is_dir_child by exact Hne.
  destruct (m !! d) as [[| |]|]; congruence.
Qed.


(** X7. When [base_path] is an existing entry that is not a directory
    (a regular file or a database), [create_directory] fails. *)
Theorem create_directory_base_not_dir (b : ValidatorDirectoryBuilder) (base_path : PathBuf)
    (w : World) (x : Entry) :
  path_comps base_path <> [] -> fs w !! base_path = Some x -> x <> Dir ->
  exists e w', create_directory b base_path w = (Err e, w').
Proof.
  intros Hne Hx HxD.
  destruct (create_directory b base_path w) as [[b'|e] w'] eqn:E; [|eauto].
  exfalso. pose proof (create_directory_keeps _ _ _ _ _ E _ _ Hx) as K.
  apply create_directory_ok in E as (vk & _ & _ & _ & Hin & _).
  rewrite (Hin base_path (in_prefixes_parent _ _ Hne)) in K. congruence.
Qed.


(** X9. When the directory named by the voting key already exists under
    [base_path], the whole builder chain fails and the file system and the
    trace are left as they were. *)
Theorem builder_pipeline_existing_dir_fails (spec : ChainSpec) (spe : N)
    (amount : DepositAmount) (keys : KeyPolicy) (base_path : PathBuf) (w : World) :
  fs w !! join base_path (file_name (dir_name (pk (fst (policy_keypairs keys))))) <> None ->
  exists e, builder_pipeline spec spe amount keys base_path w = (Err e, w).
Proof.
  intros Hex. unfold builder_pipeline, io_bind, io_lift.
  destruct amount;
    cbn -[create_directory write_keypair_files write_eth1_data_file
          create_sqlite_slashing_dbs build policy_keypairs];
  match goal with |- context [create_directory ?b2 base_path w] =>
    assert (Hv : Builder.voting_keypair b2 = Some (fst (policy_keypairs keys)))
      by (destruct keys; reflexivity);
    destruct (create_directory_existing b2 base_path w _ Hv Hex) as [e Ee];
    rewrite Ee end;
  eexists; reflexivity.
Qed.

(** X10. The three loaders ([load_for_signing], [load_keypair],
    [load_eth1_deposit_data]) never change the file system or the trace,
    whether they succeed or fail. *)
Theorem loaders_read_only (d : PathBuf) (spe : N) (prefix : string) (w : World) :
  snd (load_for_signing d spe w) = w /\ snd (load_keypair d prefix w) = w /\
  snd (load_eth1_deposit_data d w) = w.
Proof.
  split; [apply load_for_signing_pure|].
  split; [apply load_keypair_pure|apply load_eth1_deposit_data_pure].
Qed.


(** X12. A successful [write_eth1_data_file] creates the deposit-data
    file, which was absent, with the default mode (0o666 without the umask
    bits; its permissions are never set) holding "0x" and the hex of the
    recorded deposit bytes; it changes no other entry, and its writes are
    exactly a create and one write. *)
Theorem write_eth1_data_file_effect (b b' : ValidatorDirectoryBuilder) (w w' : World) :
  write_eth1_data_file b w = (Ok b', w') ->
  exists d dd, Builder.directory b = Some d /\ Builder.deposit_data b' = Some dd /\
  let pe := join d (file_name ETH1_DEPOSIT_DATA_FILE) in
  fs w !! pe = None /\
  fs w' !! pe = Some (RegFile default_file_mode (eth1_file_contents dd)) /\
  (forall q, q <> pe -> fs w' !! q = fs w !! q) /\
  trace w' = trace w ++ [ECreate pe; EWrite pe (eth1_file_contents dd)].
Proof.
  intros E. apply write_eth1_data_file_ok in E
    as (vk & wk & amount & sp & d & dd & _ & _ & _ & _ & Hd & _ & -> & Hn & Hfs & Htr).
  exists d, dd. split; [exact Hd|]. split; [reflexivity|]. cbv zeta.
  split; [exact Hn|]. split; [rewrite Hfs; apply lookup_insert_eq|]. split; [|exact Htr].
  intros q Hq. rewrite Hfs. apply lookup_insert_ne. congruence.
Qed.

(** X13. [load_eth1_deposit_data] returns [dd] exactly when the file's
    bytes are "0x" followed by a string that hex-decodes to [dd]. *)
Theorem load_eth1_deposit_data_ok_iff (d : PathBuf) (w : World) (dd : list byte) :
  fst (load_eth1_deposit_data d w) = Ok dd <->
  exists s, fst (read_to_end (join d (file_name ETH1_DEPOSIT_DATA_FILE)) w) = Ok (hex_prefix ++ s) /\
            hex_decode s = Ok dd.
Proof.
  assert (Hpure : forall c, (match strip_0x c with
             | Some rest => result_map_err
                 (fun e => ("Unable to decode eth1 data file as hex: " ++ e)%string)
                 (hex_decode rest)
             | None => Err ("String did not start with 0x: " ++ string_of_list_byte c)%string
             end = Ok dd <-> exists s, Ok c = Ok (hex_prefix ++ s) /\ hex_decode s = Ok dd)).
  { intros c. split.
    - destruct (strip_0x c) as [rest|] eqn:Es; [|discriminate].
      destruct (hex_decode rest) as [v|e] eqn:Eh; simpl; [|discriminate].
      intros E. injection E as <-. exists rest. split; [|exact Eh].
      rewrite (strip_0x_some _ _ Es). reflexivity.
    - intros (s & E & Hs). injection E as ->. cbn -[hex_decode string_of_list_byte]. rewrite Hs. reflexivity. }
  unfold load_eth1_deposit_data. io_unfold.
  cbn -[hex_decode join path_to_string string_of_list_byte strip_0x].
  destruct (fs w !! join d (file_name ETH1_DEPOSIT_DATA_FILE)) as [[|m c|sp]|] eqn:Ep;
    cbn -[hex_decode join path_to_string string_of_list_byte strip_0x];
    repeat (rewrite Ep; cbn -[hex_decode join path_to_string string_of_list_byte strip_0x]);
    try (split; [discriminate|intros (s & X & _); discriminate X]);
    apply Hpure.
Qed.

(** X14. When the builder's directory is not a directory on disk (never
    created, or an entry of another kind), [save_keypair],
    [write_eth1_data_file] and [create_sqlite_slashing_dbs] all fail and
    leave the file system and the trace as they were. *)
Theorem writers_need_directory_on_disk (b : ValidatorDirectoryBuilder) (d : PathBuf)
    (w : World) :
  Builder.directory b = Some d -> path_comps d <> [] -> fs w !! d <> Some Dir ->
  (forall kp prefix, exists e, save_keypair b kp prefix w = (Err e, w)) /\
  (exists e, write_eth1_data_file b w = (Err e, w)) /\
  (exists e, create_sqlite_slashing_dbs b w = (Err e, w)).
Proof.
  intros Hd Hne Hnd. split; [|split].
  - intros kp prefix. unfold save_keypair. rewrite Hd. io_unfold.
    destruct (fs w !! join d (file_name (keypair_file prefix))); [eexists; reflexivity|].
    rewrite parent_not_dir by assumption. eexists. reflexivity.
  - unfold write_eth1_data_file. rewrite Hd.
    destruct (Builder.voting_keypair b) as [vk|]; [|io_unfold; eexists; reflexivity].
    destruct (Builder.withdrawal_keypair b) as [wk|]; [|io_unfold; eexists; reflexivity].
    destruct (Builder.amount b) as [amount|]; [|io_unfold; eexists; reflexivity].
    destruct (Builder.spec b) as [spec|]; [|io_unfold; eexists; reflexivity].
    destruct (encode_eth1_tx_data (make_deposit_data vk wk amount spec)) as [dd|e'];
      io_unfold; [|eexists; reflexivity].
    destruct (fs w !! join d (file_name ETH1_DEPOSIT_DATA_FILE)); [eexists; reflexivity|].
    rewrite parent_not_dir by assumption. eexists. reflexivity.
  - unfold create_sqlite_slashing_dbs. rewrite Hd. io_unfold.
    destruct (fs w !! join d (file_name ATTESTER_SLASHING_DB)); [eexists; reflexivity|].
    rewrite parent_not_dir by assumption. eexists. reflexivity.
Qed.

End Proofs.

(** * Examples *)

Module Examples.
Import Sample.

(** A run that returns [Err] is ruled out by evaluating only whether it succeeded. *)
Ltac run_not_err E :=
  apply (f_equal (fun x => is_ok (fst x))) in E; vm_compute in E; discriminate E.

Lemma builder_load_roundtrip_witness :
  exists r w', builder_pipeline spec 32 FullDeposit (InsecureKeys 42) base world0 = (Ok r, w') /\
    load_for_signing (directory r) 32 w' = (Ok r, w').
Proof.
  destruct (builder_pipeline spec 32 FullDeposit (InsecureKeys 42) base world0)
    as [[r|e] w'] eqn:E.
  - exists r, w'. split; [reflexivity|].
    apply (builder_load_roundtrip spec 32 FullDeposit (InsecureKeys 42) base world0 w' r).
    + intros p x Hp. simpl in Hp. rewrite lookup_empty in Hp. discriminate Hp.
    + vm_compute. repeat split.
    + vm_compute. repeat split.
    + exact E.
  - exfalso. run_not_err E.
Defined.

Lemma load_missing_store_fails_witness :
  exists e, load_for_signing vdir 32 world_dir = (Err e, world_dir) /\
    e = ("Unable to find slashing protection in " ++ path_to_string vdir)%string.
Proof.
  assert (Ha : fs world_dir !! join vdir (file_name ATTESTER_SLASHING_DB) = None)
    by (vm_compute; reflexivity).
  destruct (load_missing_store_fails vdir 32 world_dir (or_introl Ha)) as (e & E & Hmsg).
  exists e. split; [exact E|]. apply Hmsg. intros X. vm_compute in X. discriminate X.
Defined.

Lemma existing_files_not_overwritten_witness :
  (exists e w', write_keypair_files builder_at_dir world_taken = (Err e, w') /\
     fs w' !! key_file VOTING_KEY_PREFIX = Some (RegFile 384 [Byte.x01])) /\
  (exists e, write_eth1_data_file builder_at_dir world_taken = (Err e, world_taken)).
Proof.
  destruct (existing_files_not_overwritten builder_at_dir vdir world_taken eq_refl) as [Hk He].
  assert (Hv : fs world_taken !! key_file VOTING_KEY_PREFIX <> None)
    by (intros X; vm_compute in X; discriminate X).
  assert (Hx : fs world_taken !! eth1_file <> None)
    by (intros X; vm_compute in X; discriminate X).
  split.
  - destruct (Hk (or_introl Hv)) as (e & w' & E & Keep).
    exists e, w'. split; [exact E|]. apply Keep. vm_compute. reflexivity.
  - exact (He Hx).
Defined.

Lemma keypair_files_owner_only_witness :
  exists b' w', write_keypair_files builder_at_dir world_dir = (Ok b', w') /\
    fs w' !! key_file VOTING_KEY_PREFIX = Some (RegFile 384 (keypair_as_ssz_bytes kp42)).
Proof.
  destruct (write_keypair_files builder_at_dir world_dir) as [[b'|e] w'] eqn:E.
  - exists b', w'. split; [reflexivity|].
    destruct (keypair_files_owner_only builder_at_dir b' world_dir w' E)
      as (d & vk & wk & Hd & Hvk & _ & Hv & _).
    vm_compute in Hd, Hvk. injection Hd as <-. injection Hvk as <-. exact Hv.
  - exfalso. run_not_err E.
Defined.

Lemma load_slots_per_epoch_from_store_witness :
  (exists r w', load_for_signing vdir 32 (world_signing (PSet 16)) = (Ok r, w') /\
     slots_per_epoch r = Some 16%N) /\
  (exists e, load_for_signing vdir 32 (world_signing PUndecodable) =
             (Err e, world_signing PUndecodable)).
Proof.
  split.
  - destruct (load_for_signing vdir 32 (world_signing (PSet 16))) as [[r|e] w'] eqn:E.
    + exists r, w'. split; [reflexivity|].
      destruct (proj1 (load_slots_per_epoch_from_store vdir 32 (world_signing (PSet 16))) r w' E)
        as (sp & v & Hb & _ & Hs & _ & Hv).
      vm_compute in Hb. injection Hb as <-. rewrite Hs, Hv. reflexivity.
    + exfalso. run_not_err E.
  - apply (proj2 (load_slots_per_epoch_from_store vdir 32 (world_signing PUndecodable))
             PUndecodable "Unable to decode slots_per_epoch");
      vm_compute; reflexivity.
Defined.

Lemma eth1_deposit_file_format_witness :
  (exists b' w' dd, write_eth1_data_file builder_at_dir world_dir = (Ok b', w') /\
     Builder.deposit_data b' = Some dd /\ load_eth1_deposit_data vdir w' = (Ok dd, w')) /\
  (exists e, load_eth1_deposit_data vdir world_bad_eth1 = (Err e, world_bad_eth1)).
Proof.
  split.
  - destruct (write_eth1_data_file builder_at_dir world_dir) as [[b'|e] w'] eqn:E.
    + destruct (proj1 eth1_deposit_file_format builder_at_dir b' world_dir w' E)
        as (d & dd & Hd & Hdd & _ & _ & Hload).
      vm_compute in Hd. injection Hd as <-.
      exists b', w', dd. split; [reflexivity|]. split; [exact Hdd|exact Hload].
    + exfalso. run_not_err E.
  - apply (proj2 eth1_deposit_file_format vdir world_bad_eth1 420%Z
             (list_byte_of_string "0X00")).
    + vm_compute. reflexivity.
    + intros rest X. vm_compute in X. discriminate X.
Defined.

Lemma load_voting_required_witness :
  (exists r, load_for_signing vdir 32 (world_signing (PSet 16)) =
             (Ok r, world_signing (PSet 16)) /\
     voting_keypair r = Some kp42 /\ withdrawal_keypair r = None /\ deposit_data r = None) /\
  (exists e, load_for_signing vdir 32 (world_stores (PSet 16)) =
             (Err e, world_stores (PSet 16))).
Proof.
  split.
  - destruct (load_voting_required vdir 32 (world_signing (PSet 16)))
      as (_ & Hok & Habs & _ & Heth).
    destruct (Hok Dir (SqliteStore PUnset) (PSet 16) 16%N kp42) as (r & E & Hv & Hw & Hd);
      try (vm_compute; reflexivity).
    exists r. split; [exact E|]. split; [exact Hv|]. split.
    + apply Hw. destruct (Habs WITHDRAWAL_KEY_PREFIX) as [e He];
        [vm_compute; reflexivity|]. exists e. exact He.
    + apply Hd. destruct Heth as [e He]; [vm_compute; reflexivity|]. exists e. exact He.
  - destruct (load_voting_required vdir 32 (world_stores (PSet 16)))
      as (Hreq & _ & Habs & _).
    apply Hreq. apply Habs. vm_compute. reflexivity.
Defined.

Lemma insecure_keypairs_deterministic_witness :
  exists r1 w1' r2 w2',
    builder_pipeline spec 32 FullDeposit (InsecureKeys 42) base world0 = (Ok r1, w1') /\
    builder_pipeline spec 16 (CustomDeposit 1000000000) (InsecureKeys 42) base2 world0 =
      (Ok r2, w2') /\
    voting_keypair r1 = voting_keypair r2 /\ withdrawal_keypair r1 = withdrawal_keypair r2 /\
    voting_keypair r1 = Some kp42.
Proof.
  destruct (builder_pipeline spec 32 FullDeposit (InsecureKeys 42) base world0)
    as [[r1|e1] w1'] eqn:E1; [|exfalso; run_not_err E1].
  destruct (builder_pipeline spec 16 (CustomDeposit 1000000000) (InsecureKeys 42) base2 world0)
    as [[r2|e2] w2'] eqn:E2; [|exfalso; run_not_err E2].
  destruct (insecure_keypairs_deterministic 42 spec spec 32 16 FullDeposit
              (CustomDeposit 1000000000) base base2 world0 w1' world0 w2' r1 r2 E1 E2)
    as (A & B & C & _).
  exists r1, w1', r2, w2'. repeat (split; [reflexivity|]). split; [exact A|]. split; [exact B|].
  exact C.
Defined.

(** C10 as stated does not hold: no chain of builder calls from the
    default builder ends in a [build] whose record leaves every field but
    the directory unset. *)
Lemma build_minimal_record_unreachable :
  ~ (exists ops w w' b r,
       run_ops ops default_builder w = (Ok b, w') /\ build b = Ok r /\
       voting_keypair r = None /\ withdrawal_keypair r = None /\ deposit_data r = None /\
       attestation_slashing_protection r = None /\ block_slashing_protection r = None /\
       slots_per_epoch r = None).
Proof.
  intros (ops & w & w' & b & r & E & Hb & Hv & _).
  destruct (built_keys_set ops b w w' r E Hb) as [Hv' _]. exact (Hv' Hv).
Qed.


Lemma save_keypair_load_roundtrip_witness :
  exists w', save_keypair builder_at_dir kp42 VOTING_KEY_PREFIX world_dir = (Ok tt, w') /\
    load_keypair vdir VOTING_KEY_PREFIX w' = (Ok kp42, w').
Proof.
  destruct (save_keypair builder_at_dir kp42 VOTING_KEY_PREFIX world_dir)
    as [[u|e] w'] eqn:E; [|exfalso; run_not_err E].
  destruct u. exists w'. split; [reflexivity|].
  assert (Hwf : keypair_wf kp42) by (vm_compute; repeat split).
  exact (save_keypair_load_roundtrip builder_at_dir kp42 VOTING_KEY_PREFIX vdir world_dir w' tt
           eq_refl Hwf E).
Defined.

Lemma write_keypair_files_frame_witness :
  exists b' w', write_keypair_files builder_at_dir world_dir = (Ok b', w') /\
    fs w' !! vdir = Some Dir.
Proof.
  destruct (write_keypair_files builder_at_dir world_dir) as [[b'|e] w'] eqn:E;
    [|exfalso; run_not_err E].
  exists b', w'. split; [reflexivity|].
  destruct (write_keypair_files_frame _ _ _ _ E) as (d & Hd & Hq).
  cbv [builder_at_dir Builder.directory] in Hd. injection Hd as <-.
  rewrite Hq; [vm_compute; reflexivity| |]; intros X; vm_compute in X; discriminate X.
Defined.

Lemma write_keypair_files_no_rollback_witness :
  exists e w', write_keypair_files builder_at_dir world_withdrawal_taken = (Err e, w') /\
    fs w' !! key_file VOTING_KEY_PREFIX = Some (RegFile owner_rw (keypair_as_ssz_bytes kp42)).
Proof.
  assert (Hn : fs world_withdrawal_taken !! join vdir (file_name (keypair_file VOTING_KEY_PREFIX))
               = None) by (vm_compute; reflexivity).
  assert (Hp : parent_is_dir (fs world_withdrawal_taken)
                 (join vdir (file_name (keypair_file VOTING_KEY_PREFIX))) = true)
    by (vm_compute; reflexivity).
  assert (Hx : fs world_withdrawal_taken !! join vdir (file_name (keypair_file WITHDRAWAL_KEY_PREFIX))
               <> None) by (intros X; vm_compute in X; discriminate X).
  destruct (write_keypair_files_no_rollback builder_at_dir vdir kp42 kp42 world_withdrawal_taken
              eq_refl eq_refl eq_refl Hn Hp Hx) as (e & w' & E & Hv & _).
  exists e, w'. split; [exact E|exact Hv].
Defined.

Lemma builder_ops_only_add_witness :
  exists r w', run_ops [OpWriteKeypairFiles; OpWriteEth1DataFile] builder_at_dir world_taken = (r, w') /\
    fs w' !! key_file VOTING_KEY_PREFIX = Some (RegFile 384 [Byte.x01]).
Proof.
  destruct (run_ops [OpWriteKeypairFiles; OpWriteEth1DataFile] builder_at_dir world_taken)
    as [r w'] eqn:E.
  exists r, w'. split; [reflexivity|].
  apply (builder_ops_only_add _ _ _ _ _ E). vm_compute. reflexivity.
Defined.


Lemma create_directory_base_not_dir_witness :
  exists e w', create_directory builder_keys (key_file VOTING_KEY_PREFIX) world_taken = (Err e, w').
Proof.
  apply (create_directory_base_not_dir builder_keys (key_file VOTING_KEY_PREFIX) world_taken
           (RegFile 384 [Byte.x01])).
  - intros X. vm_compute in X. discriminate X.
  - vm_compute. reflexivity.
  - discriminate.
Defined.


Lemma builder_pipeline_existing_dir_fails_witness :
  exists e, builder_pipeline spec 32 FullDeposit (InsecureKeys 42) base world_after_run =
            (Err e, world_after_run).
Proof.
  apply builder_pipeline_existing_dir_fails. intros X. vm_compute in X. discriminate X.
Defined.


Lemma write_eth1_data_file_effect_witness :
  exists b' w' dd, write_eth1_data_file builder_at_dir world_dir = (Ok b', w') /\
    fs w' !! eth1_file = Some (RegFile default_file_mode (eth1_file_contents dd)).
Proof.
  destruct (write_eth1_data_file builder_at_dir world_dir) as [[b'|e] w'] eqn:E;
    [|exfalso; run_not_err E].
  destruct (write_eth1_data_file_effect _ _ _ _ E) as (d & dd & Hd & _ & _ & Hpe & _).
  cbv [builder_at_dir Builder.directory] in Hd. injection Hd as <-.
  exists b', w', dd. split; [reflexivity|exact Hpe].
Defined.

Lemma writers_need_directory_on_disk_witness :
  exists e, write_eth1_data_file builder_at_dir world0 = (Err e, world0).
Proof.
  assert (Hne : path_comps vdir <> []) by (intros X; vm_compute in X; discriminate X).
  assert (Hnd : fs world0 !! vdir <> Some Dir) by (intros X; vm_compute in X; discriminate X).
  destruct (writers_need_directory_on_disk builder_at_dir vdir world0 eq_refl Hne Hnd)
    as (_ & Hw & _).
  exact Hw.
Defined.

End Examples.
